(** * Meningitis surveillance dashboard: aggregation, tiers, forecasts

    A shallow embedding of the computational parts of the dashboard pages
    (the functions that sit between the CSV loader and the charts) together
    with the properties stated about them.

    The surveillance table is a list of rows in file order.  Counts are
    natural numbers ([N]), years and week numbers are integers ([Z]).
    Averages and forecasts are real numbers ([R]): the bilingual forecast
    raises a ratio to a fractional power, which has no rational value.
    Percentiles and case-fatality rates are rationals ([Q]) and compute.
    Where the last place of a percentile decides the outcome, a tie of a
    value with a threshold, the thresholds are binary64 numbers as the
    program has them ([Risk64]). *)

From Stdlib Require Import ZArith NArith QArith Qround Reals.
From Stdlib Require Import String Ascii List Bool.
From Stdlib Require Import DecimalString.
From Stdlib Require Import Lia Lra Psatz Permutation Sorted.
From Stdlib Require Floats.
Import ListNotations.

(** A decimal literal of a float, such as [0.90], is the binary64 number
    nearest to it, as in Python. *)
Set Warnings "-inexact-float".

Local Open Scope Z_scope.

(** ** The surveillance table *)

Module Frame.

(** One row per district, epidemiological week and year
    (columns of [ml_final_100pct_geometry.csv]). *)
Record Row : Type := mkRow {
  region : string;
  district_clean : string;
  data_year : Z;
  week_number : Z;
  cases : N;
  deaths : N;
  population : N
}.

Definition DataFrame : Type := list Row.

(** [df[df[col] == v]] for the district column. *)
Definition where_district (district : string) (df : DataFrame) : DataFrame :=
  filter (fun r => String.eqb (district_clean r) district) df.

(** [Series.sum()] of a count column. *)
Definition sumN (l : list N) : N := fold_right N.add 0%N l.

(** [df.head(n)] and [df.tail(n)]. *)
Definition head {A : Type} (n : nat) (l : list A) : list A := firstn n l.
Definition tail {A : Type} (n : nat) (l : list A) : list A :=
  skipn (length l - n) l.

(** Stable insertion sort: [before y x] says that [y] must come strictly
    before [x]; rows that compare equal keep their original order. *)
Fixpoint insert_by {A : Type} (before : A -> A -> bool) (x : A) (l : list A)
  : list A :=
  match l with
  | [] => [x]
  | y :: l' => if before y x then y :: insert_by before x l' else x :: l
  end.

Fixpoint sort_by {A : Type} (before : A -> A -> bool) (l : list A) : list A :=
  match l with
  | [] => []
  | x :: l' => insert_by before x (sort_by before l')
  end.

(** Lexicographic order on the columns [['data_year', 'week_number']]. *)
Definition key_ltb (a b : Row) : bool :=
  (data_year a <? data_year b)
  || ((data_year a =? data_year b) && (week_number a <? week_number b)).

(** [df.nlargest(n, ['data_year', 'week_number'])]: the [n] rows with the
    largest keys, in descending order, first occurrences first on ties
    (pandas documents it as [sort_values(cols, ascending=False).head(n)]). *)
Definition nlargest (n : nat) (df : DataFrame) : DataFrame :=
  firstn n (sort_by (fun y x => key_ltb x y) df).

(** [df.nsmallest(n, ['data_year', 'week_number'])]. *)
Definition nsmallest (n : nat) (df : DataFrame) : DataFrame :=
  firstn n (sort_by (fun y x => key_ltb y x) df).

(** A count as a real number. *)
Definition real_count (c : N) : R := IZR (Z.of_N c).

(** [Series.mean()] of a count column: sum over count.  (On an empty column
    pandas gives NaN; every use below is on a non-empty column.) *)
Definition mean (l : list N) : R :=
  (real_count (sumN l) / INR (length l))%R.

End Frame.

(** ** Forecast of [pages/4_Predictions_BILINGUAL.py] *)

Module PredictionsBilingual.
Import Frame.

(** [x ** y] on floats for a base [x >= 0]: counts are non-negative, so the
    trend factor, a quotient of two means, is never negative. *)
Definition float_pow (x y : R) : R :=
  if Req_dec_T x 0 then (if Req_dec_T y 0 then 1%R else 0%R)
  else Rpower x y.

(** [None] is Python's [None]. *)
Definition make_simple_prediction (df : DataFrame) (district : string)
    (weeks_ahead : Z) : option R :=
  let district_data := where_district district df in
  if (length district_data <? 12)%nat then None
  else
    let recent_data := nlargest 12 district_data in
    let avg_cases := mean (map cases recent_data) in
    let trend_factor :=
      if (12 <=? length recent_data)%nat then
        let recent_4 := mean (map cases (nlargest 4 recent_data)) in
        let previous_8 :=
          mean (map cases (nsmallest 8 (nlargest 12 recent_data))) in
        if Rlt_dec 0 previous_8 then (recent_4 / previous_8)%R else 1%R
      else 1%R in
    let dampening := (1 - (IZR weeks_ahead - 1) * (5 / 100))%R in
    let dampening := Rmax dampening (7 / 10) in
    let predicted := (avg_cases * float_pow trend_factor dampening)%R in
    Some (Rmax 0 predicted).

End PredictionsBilingual.

(** ** Forecast of the second predictions page, [pages/4_*_Predictions.py] *)

Module Predictions.
Import Frame.

Definition make_simple_prediction (df : DataFrame) (district : string)
    (weeks_ahead : Z) : option R :=
  let district_data := where_district district df in
  let recent := tail 12 district_data in
  if (length recent <? 4)%nat then None
  else
    let predicted_cases := mean (map cases (tail 4 recent)) in
    let predicted_cases :=
      if (8 <=? length recent)%nat then
        let older_avg := mean (map cases (head 4 recent)) in
        let newer_avg := mean (map cases (tail 4 recent)) in
        let trend := (newer_avg - older_avg)%R in
        (predicted_cases + trend * (5 / 10))%R
      else predicted_cases in
    Some (Rmax 0 predicted_cases).

End Predictions.

(** ** Risk tiers (both predictions pages) *)

Module Risk.
Import Frame.
Local Open Scope Q_scope.

Inductive RiskLevel : Type := Low | Moderate | High | Critical.

(** Position of a tier in the order Low < Moderate < High < Critical. *)
Definition priority (t : RiskLevel) : nat :=
  match t with Low => 0 | Moderate => 1 | High => 2 | Critical => 3 end.

Definition Qltb (a b : Q) : bool := negb (Qle_bool b a).

Definition count (c : N) : Q := inject_Z (Z.of_N c).

(** [Series.quantile(q)] with the default linear interpolation, in exact
    arithmetic: on the sorted values, position [q * (n - 1)], interpolated
    between its two neighbours.  [None] is NaN (empty series).  The program
    evaluates this expression in binary64, which is [Risk64.quantile]
    below; its result can lie one rounding away from the exact value. *)
Definition quantile (q : Q) (l : list N) : option Q :=
  match l with
  | [] => None
  | _ :: _ =>
      let s := sort_by N.ltb l in
      let n := length s in
      let pos := q * inject_Z (Z.of_nat (n - 1)) in
      let lo := Z.to_nat (Qfloor pos) in
      let hi := Nat.min (lo + 1) (n - 1) in
      let frac := pos - inject_Z (Qfloor pos) in
      let a := count (nth lo s 0%N) in
      let b := count (nth hi s 0%N) in
      Some (a + (b - a) * frac)
  end.

(** [value > threshold]; a comparison with NaN is false. *)
Definition exceeds (value : Q) (threshold : option Q) : bool :=
  match threshold with
  | Some t => Qltb t value
  | None => false
  end.

(** The label is kept as the tier (its text depends on the language); the
    CSS class and the colour are the other two components. *)
Definition classify_risk_level (predicted_cases : Q)
    (district_data : DataFrame) : RiskLevel * string * string :=
  let cases_series := map cases district_data in
  let p50 := quantile (50 # 100) cases_series in
  let p75 := quantile (75 # 100) cases_series in
  let p90 := quantile (90 # 100) cases_series in
  if exceeds predicted_cases p90
  then (Critical, "risk-critical", "#DC3545")%string
  else if exceeds predicted_cases p75
  then (High, "risk-high", "#FFC107")%string
  else if exceeds predicted_cases p50
  then (Moderate, "risk-moderate", "#17A2B8")%string
  else (Low, "risk-low", "#28A745")%string.

Definition tier (predicted_cases : Q) (district_data : DataFrame) : RiskLevel :=
  fst (fst (classify_risk_level predicted_cases district_data)).

End Risk.

(** ** Risk tiers in binary64 *)

(** [Series.quantile] and the comparisons of [classify_risk_level] as the
    program evaluates them, in binary64 floating point. *)
Module Risk64.
Import Frame.
Import Floats.
Local Open Scope float_scope.

(** The binary64 number nearest to an integer: a count read as a float. *)
Definition of_Z (z : Z) : float :=
  SF2Prim (binary_normalize prec emax z 0 false).

(** [np.floor] of a finite number, as an integer. *)
Definition floor (x : float) : Z :=
  match Prim2SF x with
  | S754_finite s m e => Z.shiftl (if s then Zneg m else Zpos m) e
  | _ => 0%Z
  end.

(** numpy's [_lerp(a, b, t)] on two values of an integer column: the
    difference is taken on the integers, and the upper end is the anchor
    from [t >= 0.5] on. *)
Definition lerp (a b : Z) (t : float) : float :=
  let diff_b_a := of_Z (b - a) in
  if 0.5 <=? t then of_Z b - diff_b_a * (1 - t) else of_Z a + diff_b_a * t.

(** [Series.quantile(q)] with the default linear interpolation.  pandas
    hands [q * 100] to [np.percentile], which divides by 100 again, takes
    the position [(n - 1) * q] on the sorted values and interpolates
    between the two neighbours of that position.  NaN on an empty
    series. *)
Definition quantile (q : float) (l : list N) : float :=
  match l with
  | [] => nan
  | _ :: _ =>
      let s := sort_by N.ltb l in
      let n := length s in
      let quantiles := q * 100 / 100 in
      let virtual_index := of_Z (Z.of_nat (n - 1)) * quantiles in
      let previous_index := floor virtual_index in
      let next_index := Z.min (previous_index + 1) (Z.of_nat (n - 1)) in
      let gamma := virtual_index - of_Z previous_index in
      lerp (Z.of_N (nth (Z.to_nat previous_index) s 0%N))
           (Z.of_N (nth (Z.to_nat next_index) s 0%N))
           gamma
  end.

(** [classify_risk_level] of both predictions pages; the label is kept as
    the tier. *)
Definition classify_risk_level (predicted_cases : float)
    (district_data : DataFrame) : Risk.RiskLevel * string * string :=
  let cases_series := map cases district_data in
  let p50 := quantile 0.50 cases_series in
  let p75 := quantile 0.75 cases_series in
  let p90 := quantile 0.90 cases_series in
  if p90 <? predicted_cases
  then (Risk.Critical, "risk-critical", "#DC3545")%string
  else if p75 <? predicted_cases
  then (Risk.High, "risk-high", "#FFC107")%string
  else if p50 <? predicted_cases
  then (Risk.Moderate, "risk-moderate", "#17A2B8")%string
  else (Risk.Low, "risk-low", "#28A745")%string.

Definition tier (predicted_cases : float) (district_data : DataFrame)
  : Risk.RiskLevel :=
  fst (fst (classify_risk_level predicted_cases district_data)).

End Risk64.

(** ** Overview page: [Check/pages/1_Overview.py] *)

Module Overview.
Import Frame.
Local Open Scope Q_scope.

(** [df[df['data_year'].isin(years) & df['region'].isin(regions)]]. *)
Definition filter_selection (df : DataFrame) (selected_years : list Z)
    (selected_regions : list string) : DataFrame :=
  filter (fun r => existsb (Z.eqb (data_year r)) selected_years
                   && existsb (String.eqb (region r)) selected_regions) df.

(** Result of a float column operation: a number, infinity or NaN. *)
Inductive Float : Type := Finite (q : Q) | Inf | NaN.

(** Element of [Series / Series] on count columns: [0/0] is NaN and
    [d/0] with [d > 0] is infinity. *)
Definition series_div (a b : N) : Float :=
  if (b =? 0)%N then (if (a =? 0)%N then NaN else Inf)
  else Finite (Risk.count a / Risk.count b).

(** [Series * k] for a positive constant [k]. *)
Definition series_scale (f : Float) (k : Q) : Float :=
  match f with Finite q => Finite (q * k) | Inf => Inf | NaN => NaN end.

(** [Series.fillna(v)]: only NaN is replaced. *)
Definition fillna (v : Q) (f : Float) : Float :=
  match f with NaN => Finite v | _ => f end.

(** The KPI dictionary, restricted to the three totals. *)
Record KPIs : Type := mkKPIs {
  total_cases : N;
  total_deaths : N;
  overall_cfr : Q
}.

Definition compute_kpis (df : DataFrame) (selected_years : list Z)
    (selected_regions : list string) : KPIs :=
  let df_filtered := filter_selection df selected_years selected_regions in
  let total_cases := sumN (map cases df_filtered) in
  let total_deaths := sumN (map deaths df_filtered) in
  let overall_cfr :=
    if (0 <? total_cases)%N
    then Risk.count total_deaths / Risk.count total_cases * 100
    else 0 in
  mkKPIs total_cases total_deaths overall_cfr.

Record YearRow : Type := mkYearRow {
  yr_data_year : Z;
  yr_cases : N;
  yr_deaths : N;
  yr_cfr : Float
}.

(** [groupby('data_year').agg({'cases': 'sum', 'deaths': 'sum'})]: one row
    per year present, in increasing order of year. *)
Definition get_temporal_data (df : DataFrame) (selected_years : list Z)
    (selected_regions : list string) : list YearRow :=
  let df_filtered := filter_selection df selected_years selected_regions in
  let years := sort_by Z.ltb (nodup Z.eq_dec (map data_year df_filtered)) in
  map (fun y =>
         let g := filter (fun r => data_year r =? y)%Z df_filtered in
         let c := sumN (map cases g) in
         let d := sumN (map deaths g) in
         mkYearRow y c d (fillna 0 (series_scale (series_div d c) 100)))
      years.

Record RegionRow : Type := mkRegionRow {
  rg_region : string;
  rg_total_cases : N;
  rg_total_deaths : N;
  rg_num_districts : nat;
  rg_population : N;
  rg_cfr : Float;
  rg_incidence_rate : Float
}.

(** [groupby('region')] with sums, [nunique] and [first], then the rates,
    then [sort_values('total_cases', ascending=False)].  Categories with no
    row in the selection are left out (their totals would be 0). *)
Definition get_regional_data (df : DataFrame) (selected_years : list Z)
    (selected_regions : list string) : list RegionRow :=
  let df_filtered := filter_selection df selected_years selected_regions in
  let regions :=
    sort_by String.ltb (nodup string_dec (map region df_filtered)) in
  let regional_data :=
    map (fun k =>
           let g := filter (fun r => String.eqb (region r) k) df_filtered in
           let c := sumN (map cases g) in
           let d := sumN (map deaths g) in
           let pop := hd 0%N (map population g) in
           mkRegionRow k c d
             (length (nodup string_dec (map district_clean g))) pop
             (fillna 0 (series_scale (series_div d c) 100))
             (fillna 0 (series_scale (series_div c pop) 100000)))
        regions in
  sort_by (fun y x => (rg_total_cases x <? rg_total_cases y)%N) regional_data.

End Overview.

(** ** LISA page: [pages/6_*LISA_Analysis.py] *)

Module Lisa.
Import Frame.

Inductive Cluster : Type :=
  NotSignificant | HighHigh | LowHigh | LowLow | HighLow.

Record LisaRow : Type := mkLisaRow {
  ls_district : string;
  ls_cases : N;
  lisa_quadrant : Z;
  lisa_pvalue : Q;
  lisa_cluster : Cluster
}.

(** The dictionary [quadrant_labels], in insertion order. *)
Definition quadrant_labels : list (Z * Cluster) :=
  [(1, HighHigh); (2, LowHigh); (3, LowLow); (4, HighLow)].

(** [sig_mask = lisa.p_sim < 0.05] for one district. *)
Definition sig_mask (p_sim : Q) : bool := Risk.Qltb p_sim (5 # 100).

(** The column starts as "not significant"; the loop over [quadrant_labels]
    overwrites it where [(lisa.q == q) & sig_mask]. *)
Definition cluster_label (q : Z) (p_sim : Q) : Cluster :=
  fold_left
    (fun acc ql => if (q =? fst ql) && sig_mask p_sim then snd ql else acc)
    quadrant_labels NotSignificant.

Fixpoint label_rows (ds : list string) (ys : list N) (qs : list Z)
    (ps : list Q) : list LisaRow :=
  match ds, ys, qs, ps with
  | d :: ds', y :: ys', q :: qs', p :: ps' =>
      mkLisaRow d y q p (cluster_label q p) :: label_rows ds' ys' qs' ps'
  | _, _, _, _ => []
  end.

Section WithMoran.

(** The spatial weights and the external statistic [esda.Moran_Local]:
    from the values and the weights it yields the quadrant codes [q] and the
    permutation p-values [p_sim], or raises ([None]). *)
Variable Weights : Type.
Variable Moran_Local : list N -> Weights -> option (list Z * list Q).

(** [_gdf] is the geometry table, here its [district_clean] column.  The
    left merge gives every geometry row the year's case total of its
    district, 0 when the district has no row that year. *)
Definition compute_lisa_for_year (_gdf : list string) (_w : Weights)
    (df : DataFrame) (year : Z) : option (list LisaRow) :=
  let year_rows := filter (fun r => data_year r =? year) df in
  let y := map (fun d => sumN (map cases (where_district d year_rows))) _gdf in
  if (sumN y =? 0)%N then None
  else
    match Moran_Local y _w with
    | Some (q, p_sim) =>
        if ((length q =? length _gdf) && (length p_sim =? length _gdf))%nat
        then Some (label_rows _gdf y q p_sim)
        else None
    | None => None
    end.

(** The loop of [main] that fills [lisa_results]: [significance_level] is
    the slider value; it is shown on the page and is not passed on. *)
Definition lisa_results (significance_level : Q) (gdf : list string)
    (w : Weights) (df : DataFrame) (selected_years : list Z)
  : list (Z * list LisaRow) :=
  flat_map (fun year =>
              match compute_lisa_for_year gdf w df year with
              | Some result => [(year, result)]
              | None => []
              end)
           selected_years.

End WithMoran.

End Lisa.

(** ** CSV export file names *)

Module Downloads.
Local Open Scope string_scope.

Record datetime : Type := mkDatetime {
  dt_year : Z; dt_month : Z; dt_day : Z; dt_hour : Z; dt_minute : Z
}.

(** [str(n)] / [f"{n}"] of an integer. *)
Definition str (n : Z) : string := NilZero.string_of_int (Z.to_int n).

(** Two-digit field of [strftime] ([%m], [%d], [%H], [%M]). *)
Definition two_digits (n : Z) : string :=
  if (n <? 10)%Z then "0" ++ str n else str n.

(** [now.strftime('%Y%m%d_%H%M')] (years of four digits). *)
Definition strftime_Ymd_HM (now : datetime) : string :=
  str (dt_year now) ++ two_digits (dt_month now) ++ two_digits (dt_day now)
  ++ "_" ++ two_digits (dt_hour now) ++ two_digits (dt_minute now).

(** The radio button of the cases filter: 'all', 'positive' or 'custom'
    with its two bounds. *)
Inductive CasesFilter : Type :=
  | AllRecords
  | PositiveCases
  | CustomRange (cases_min cases_max : Z).

(** The filter widgets of the data explorer page. *)
Record ExplorerFilters : Type := mkExplorerFilters {
  ef_selected_years : list Z;
  ef_week_range : Z * Z;
  ef_selected_regions : list string;
  ef_show_district_filter : bool;
  ef_selected_districts : list string;
  ef_cases_filter : CasesFilter
}.

(** What [main] of [pages/5_Data_Explorer_BILINGUAL.py] has at hand when it
    builds the two download buttons. *)
Record ExplorerState : Type := mkExplorerState {
  es_filters : ExplorerFilters;
  es_now : datetime;
  es_lang : string
}.

Definition explorer_filtered_file_name (s : ExplorerState) : string :=
  "meningitis_filtered_" ++ strftime_Ymd_HM (es_now s) ++ "_" ++ es_lang s
  ++ ".csv".

Definition explorer_statistics_file_name (s : ExplorerState) : string :=
  "statistics_" ++ strftime_Ymd_HM (es_now s) ++ "_" ++ es_lang s ++ ".csv".

(** [analysis_mode_en] of the LISA page. *)
Inductive AnalysisMode : Type :=
  SingleYear | MultiYearComparison | AllYearsGrid.

(** What [main] of the LISA page has at hand at its download section. *)
Record LisaState : Type := mkLisaState {
  lz_analysis_mode : AnalysisMode;
  lz_selected_years : list Z;
  lz_significance_level : Q;
  lz_now : datetime;
  lz_lang : string
}.

(** [year = selected_years[0]] in single-year mode, where the list has one
    element. *)
Definition lisa_file_name (s : LisaState) : string :=
  match lz_analysis_mode s with
  | SingleYear =>
      "lisa_clusters_" ++ str (hd 0%Z (lz_selected_years s)) ++ "_"
      ++ lz_lang s ++ ".csv"
  | _ => "lisa_multi_year_summary_" ++ lz_lang s ++ ".csv"
  end.

(** [now.strftime('%Y%m%d')] (years of four digits). *)
Definition strftime_Ymd (now : datetime) : string :=
  str (dt_year now) ++ two_digits (dt_month now) ++ two_digits (dt_day now).

(** What [main] of [pages/5_*_Data_Explorer.py] has at hand: the same
    widgets, and no language. *)
Record PlainExplorerState : Type := mkPlainExplorerState {
  pe_filters : ExplorerFilters;
  pe_now : datetime
}.

Definition plain_explorer_filtered_file_name (s : PlainExplorerState)
  : string :=
  "meningitis_filtered_" ++ strftime_Ymd_HM (pe_now s) ++ ".csv".

Definition plain_explorer_statistics_file_name (s : PlainExplorerState)
  : string :=
  "statistics_" ++ strftime_Ymd_HM (pe_now s) ++ ".csv".

(** The sidebar of [minimal_dashboard.py] and the time of the export. *)
Record MinimalState : Type := mkMinimalState {
  mn_selected_years : list Z;
  mn_selected_regions : list string;
  mn_week_range : Z * Z;
  mn_now : datetime
}.

Definition minimal_data_file_name (s : MinimalState) : string :=
  "meningitis_data_" ++ strftime_Ymd (mn_now s) ++ ".csv".

Definition minimal_summary_file_name (s : MinimalState) : string :=
  "district_summary_" ++ strftime_Ymd (mn_now s) ++ ".csv".

(** The sidebar of a spatial analysis page; [sp_lang] is read by the
    bilingual page only. *)
Record SpatialState : Type := mkSpatialState {
  sp_selected_year : Z;
  sp_selected_regions : list string;
  sp_now : datetime;
  sp_lang : string
}.

(** [Check/pages/2_Spatial_Analysis.py]. *)
Definition spatial_file_name (s : SpatialState) : string :=
  "district_rankings_" ++ str (sp_selected_year s) ++ ".csv".

(** [pages/2_Spatial_Analysis_BILINGUAL.py]. *)
Definition spatial_bilingual_file_name (s : SpatialState) : string :=
  "district_rankings_" ++ str (sp_selected_year s) ++ "_" ++ sp_lang s
  ++ ".csv".

(** The sidebar of a predictions page; [pr_lang] is read by the bilingual
    page only. *)
Record PredictionsState : Type := mkPredictionsState {
  pr_weeks_ahead : Z;
  pr_selected_regions : list string;
  pr_now : datetime;
  pr_lang : string
}.

(** [pages/4_*_Predictions.py]. *)
Definition predictions_file_name (s : PredictionsState) : string :=
  "predictions_" ++ str (pr_weeks_ahead s) ++ "weeks_"
  ++ strftime_Ymd (pr_now s) ++ ".csv".

(** [pages/4_Predictions_BILINGUAL.py]. *)
Definition predictions_bilingual_file_name (s : PredictionsState) : string :=
  "predictions_" ++ str (pr_weeks_ahead s) ++ "weeks_" ++ pr_lang s
  ++ ".csv".

(** [needle in haystack]. *)
Fixpoint contains (needle haystack : string) : bool :=
  String.prefix needle haystack
  || match haystack with
     | EmptyString => false
     | String _ rest => contains needle rest
     end.

End Downloads.

(** ** Sample tables and page states *)

Module Scenario.
Import Frame.

(** A district observed in consecutive weeks of 2024 with the given counts. *)
Fixpoint weekly (w : Z) (cs : list N) : DataFrame :=
  match cs with
  | [] => []
  | c :: cs' => mkRow "Nord" "Garoua" 2024 w c 0 1000 :: weekly (w + 1) cs'
  end.

Definition history8 : DataFrame := weekly 1 [5; 5; 5; 5; 50; 50; 50; 50]%N.

Definition history12 : DataFrame :=
  weekly 1 [5; 5; 5; 5; 5; 5; 5; 5; 50; 50; 50; 50]%N.

(** The district totals [100, 80, 50, 20, 5] as a reference table. *)
Definition ranking_totals : DataFrame := weekly 1 [100; 80; 50; 20; 5]%N.


(** One week in which a death is recorded and no case. *)
Definition death_without_case : DataFrame :=
  [mkRow "Nord" "Garoua" 2024 1 0 1 1000].

(** Quadrants and p-values of two districts, as the statistic may give
    them. *)
Definition moran_two_districts (y : list N) (w : unit)
  : option (list Z * list Q) :=
  Some ([1; 3], [3 # 100; 7 # 100]%Q).

Definition two_districts_2024 : DataFrame :=
  [mkRow "Nord" "Garoua" 2024 1 5 0 1000;
   mkRow "Extreme-Nord" "Maroua" 2024 1 2 0 2000].

(** Cases in 2023 only. *)
Definition quiet_2024 : DataFrame :=
  [mkRow "Nord" "Garoua" 2023 50 4 1 1000;
   mkRow "Nord" "Garoua" 2024 1 0 0 1000;
   mkRow "Extreme-Nord" "Maroua" 2024 1 0 0 2000].

Definition export_time_a : Downloads.datetime :=
  Downloads.mkDatetime 2025 3 7 9 5.
Definition export_time_b : Downloads.datetime :=
  Downloads.mkDatetime 2026 11 3 13 29.
(** The day of [export_time_a], in the afternoon. *)
Definition export_time_c : Downloads.datetime :=
  Downloads.mkDatetime 2025 3 7 16 40.

Definition all_filters : Downloads.ExplorerFilters :=
  Downloads.mkExplorerFilters [2023; 2024] (1, 53) ["Nord"%string] false []
    Downloads.AllRecords.
Definition narrow_filters : Downloads.ExplorerFilters :=
  Downloads.mkExplorerFilters [2024] (10, 20) ["Est"%string] true
    ["Bertoua"%string] (Downloads.CustomRange 1 1000).

End Scenario.

(** ** Grouping by region and district *)

Module Grouping.
Import Frame.

(** Categories of a column cast with [astype('category')]: its distinct
    values in sorted order. *)
Definition categories (col : list string) : list string :=
  sort_by String.ltb (nodup string_dec col).

Definition pair_dec (a b : string * string) : {a = b} + {a <> b}.
Proof. decide equality; apply string_dec. Defined.

(** Lexicographic order on [(region, district_clean)]. *)
Definition pair_ltb (a b : string * string) : bool :=
  String.ltb (fst a) (fst b)
  || (String.eqb (fst a) (fst b) && String.ltb (snd a) (snd b)).

Definition row_key (r : Row) : string * string :=
  (region r, district_clean r).

Definition has_key (k : string * string) (r : Row) : bool :=
  String.eqb (region r) (fst k) && String.eqb (district_clean r) (snd k).

(** Group keys of [groupby(['region', 'district_clean'])] on the filtered
    table.  Both columns are categorical, so the keys depend on the
    [observed] setting of [groupby], whose default differs between pandas
    versions: with [observed = true] the keys are the pairs that occur in
    the filtered table; with [observed = false] they are all pairs of a
    region category and a district category of the loaded table, and a
    pair without rows gets empty sums. *)
Definition group_keys (observed : bool) (df df_filtered : DataFrame)
  : list (string * string) :=
  if observed
  then sort_by pair_ltb (nodup pair_dec (map row_key df_filtered))
  else list_prod (categories (map region df))
                 (categories (map district_clean df)).

(** ['population': 'first']: the first value of the group, NaN ([None])
    for a group without rows. *)
Definition first_population (g : DataFrame) : option N :=
  match g with
  | [] => None
  | r :: _ => Some (population r)
  end.

(** [Series / Series] with a float denominator that may be NaN. *)
Definition div_by_population (c : N) (pop : option N) : Overview.Float :=
  match pop with
  | None => Overview.NaN
  | Some p => Overview.series_div c p
  end.

End Grouping.

(** ** Spatial analysis pages: [prepare_spatial_data] *)

Module Spatial.
Import Frame.

Record DistrictRow : Type := mkDistrictRow {
  ds_region : string;
  ds_district_clean : string;
  ds_cases : N;
  ds_deaths : N;
  ds_population : option N;
  ds_incidence_rate : Overview.Float;
  ds_cfr : Overview.Float
}.

(** Element of [deaths / cases.replace(0, np.nan)]: a zero denominator has
    become NaN, and a division by NaN is NaN. *)
Definition div_by_nonzero (d c : N) : Overview.Float :=
  if (c =? 0)%N then Overview.NaN
  else Overview.Finite (Risk.count d / Risk.count c).

(** The last step is [sort_values('cases', ascending=False)]; rows with
    equal cases are kept here in group order. *)
Definition prepare_spatial_data (observed : bool) (df : DataFrame)
    (selected_year : Z) (selected_regions : list string)
  : list DistrictRow :=
  let df_filtered :=
    filter (fun r => (data_year r =? selected_year)
                     && existsb (String.eqb (region r)) selected_regions)
           df in
  let district_summary :=
    map (fun k =>
           let g := filter (Grouping.has_key k) df_filtered in
           let c := sumN (map cases g) in
           let d := sumN (map deaths g) in
           let pop := Grouping.first_population g in
           mkDistrictRow (fst k) (snd k) c d pop
             (Overview.fillna 0
                (Overview.series_scale (Grouping.div_by_population c pop)
                                       100000))
             (Overview.fillna 0
                (Overview.series_scale (div_by_nonzero d c) 100)))
        (Grouping.group_keys observed df df_filtered) in
  sort_by (fun y x => (ds_cases x <? ds_cases y)%N) district_summary.

End Spatial.

(** ** Overview page: [get_high_risk_districts] *)

Module Ranking.
Import Frame.

Record RankedRow : Type := mkRankedRow {
  rk_region : string;
  rk_district_clean : string;
  rk_cases : N;
  rk_deaths : N;
  rk_population : option N;
  rk_cfr : Overview.Float;
  rk_incidence_rate : Overview.Float
}.

(** The inner function [classify_risk]: the thresholds are the quantiles
    of the case totals of all groups, not only of the top ones. *)
Definition classify_risk (all_cases : list N) (cases : N) : Risk.RiskLevel :=
  if Risk.exceeds (Risk.count cases) (Risk.quantile (90 # 100) all_cases)
  then Risk.Critical
  else if Risk.exceeds (Risk.count cases) (Risk.quantile (75 # 100) all_cases)
  then Risk.High
  else if Risk.exceeds (Risk.count cases) (Risk.quantile (50 # 100) all_cases)
  then Risk.Moderate
  else Risk.Low.

(** The grouped table [district_data] with its two rate columns. *)
Definition district_data (observed : bool) (df : DataFrame)
    (selected_years : list Z) (selected_regions : list string)
  : list RankedRow :=
  let df_filtered :=
    Overview.filter_selection df selected_years selected_regions in
  map (fun k =>
         let g := filter (Grouping.has_key k) df_filtered in
         let c := sumN (map cases g) in
         let d := sumN (map deaths g) in
         let pop := Grouping.first_population g in
         mkRankedRow (fst k) (snd k) c d pop
           (Overview.fillna 0
              (Overview.series_scale (Overview.series_div d c) 100))
           (Overview.fillna 0
              (Overview.series_scale (Grouping.div_by_population c pop)
                                     100000)))
      (Grouping.group_keys observed df df_filtered).

(** [top_districts]: [district_data.nlargest(top_n, 'cases')] with the
    column [risk_level] added. *)
Definition get_high_risk_districts (observed : bool) (df : DataFrame)
    (selected_years : list Z) (selected_regions : list string) (top_n : nat)
  : list (RankedRow * Risk.RiskLevel) :=
  let data := district_data observed df selected_years selected_regions in
  let top_districts :=
    firstn top_n (sort_by (fun y x => (rk_cases x <? rk_cases y)%N) data) in
  map (fun r => (r, classify_risk (map rk_cases data) (rk_cases r)))
      top_districts.

End Ranking.

(** ** Temporal analysis pages *)

Module Temporal.
Import Frame.

Record WeekRow : Type := mkWeekRow {
  wk_data_year : Z;
  wk_week_number : Z;
  wk_cases : N
}.

Definition week_dec (a b : Z * Z) : {a = b} + {a <> b}.
Proof. decide equality; apply Z.eq_dec. Defined.

(** Lexicographic order on [(data_year, week_number)]. *)
Definition week_ltb (a b : Z * Z) : bool :=
  (fst a <? fst b) || ((fst a =? fst b) && (snd a <? snd b)).

(** [groupby(['data_year', 'week_number'])['cases'].sum().reset_index()]. *)
Definition weekly_sums (df_filtered : DataFrame) : list WeekRow :=
  map (fun k =>
         mkWeekRow (fst k) (snd k)
           (sumN (map cases
                      (filter (fun r => (data_year r =? fst k)
                                        && (week_number r =? snd k))
                              df_filtered))))
      (sort_by week_ltb
         (nodup week_dec
            (map (fun r => (data_year r, week_number r)) df_filtered))).

Definition get_yearly_trends (df : DataFrame) (selected_years : list Z)
    (selected_regions : list string) : list WeekRow :=
  weekly_sums (Overview.filter_selection df selected_years selected_regions).

(** Returns [(epidemic_weeks, threshold)]; the threshold is NaN ([None])
    when the selection is empty.  The pages call it with the default
    percentile 90; [Series.quantile] accepts the percentiles 0 to 100
    only. *)
Definition identify_epidemic_weeks (df : DataFrame) (selected_years : list Z)
    (selected_regions : list string) (threshold_percentile : Z)
  : list WeekRow * option Q :=
  let df_filtered :=
    Overview.filter_selection df selected_years selected_regions in
  let threshold :=
    Risk.quantile (inject_Z threshold_percentile / 100)%Q
                  (map wk_cases (weekly_sums df_filtered)) in
  let weekly_cases := weekly_sums df_filtered in
  let epidemic_weeks :=
    filter (fun w => Risk.exceeds (Risk.count (wk_cases w)) threshold)
           weekly_cases in
  (epidemic_weeks, threshold).

End Temporal.

(** ** Data explorer pages: the filter pipeline of [main] *)

Module Explorer.
Import Frame.

(** [df_filtered] after the five filter steps.  An empty year or region
    selection skips its step; the district step needs the checkbox and a
    non-empty selection. *)
Definition apply_filters (f : Downloads.ExplorerFilters) (df : DataFrame)
  : DataFrame :=
  let df_filtered := df in
  let df_filtered :=
    match Downloads.ef_selected_years f with
    | [] => df_filtered
    | _ :: _ =>
        filter (fun r => existsb (Z.eqb (data_year r))
                                 (Downloads.ef_selected_years f))
               df_filtered
    end in
  let df_filtered :=
    filter (fun r => (fst (Downloads.ef_week_range f) <=? week_number r)
                     && (week_number r <=? snd (Downloads.ef_week_range f)))
           df_filtered in
  let df_filtered :=
    match Downloads.ef_selected_regions f with
    | [] => df_filtered
    | _ :: _ =>
        filter (fun r => existsb (String.eqb (region r))
                                 (Downloads.ef_selected_regions f))
               df_filtered
    end in
  let df_filtered :=
    match Downloads.ef_show_district_filter f,
          Downloads.ef_selected_districts f with
    | true, _ :: _ =>
        filter (fun r => existsb (String.eqb (district_clean r))
                                 (Downloads.ef_selected_districts f))
               df_filtered
    | _, _ => df_filtered
    end in
  match Downloads.ef_cases_filter f with
  | Downloads.AllRecords => df_filtered
  | Downloads.PositiveCases => filter (fun r => (0 <? cases r)%N) df_filtered
  | Downloads.CustomRange cases_min cases_max =>
      filter (fun r => (cases_min <=? Z.of_N (cases r))
                       && (Z.of_N (cases r) <=? cases_max))
             df_filtered
  end.

(** The row test that the five steps of the explorer amount to. *)
Definition keeps (f : Downloads.ExplorerFilters) (r : Row)
  : bool :=
  match Downloads.ef_selected_years f with
  | [] => true
  | _ :: _ => existsb (Z.eqb (data_year r))
                      (Downloads.ef_selected_years f)
  end
  && ((fst (Downloads.ef_week_range f) <=? week_number r)
      && (week_number r <=? snd (Downloads.ef_week_range f)))
  && match Downloads.ef_selected_regions f with
     | [] => true
     | _ :: _ => existsb (String.eqb (region r))
                         (Downloads.ef_selected_regions f)
     end
  && match Downloads.ef_show_district_filter f,
           Downloads.ef_selected_districts f with
     | true, _ :: _ => existsb (String.eqb (district_clean r))
                               (Downloads.ef_selected_districts f)
     | _, _ => true
     end
  && match Downloads.ef_cases_filter f with
     | Downloads.AllRecords => true
     | Downloads.PositiveCases => (0 <? cases r)%N
     | Downloads.CustomRange cases_min cases_max =>
         (cases_min <=? Z.of_N (cases r))
         && (Z.of_N (cases r) <=? cases_max)
     end.

(** The same filters with another year selection or cases filter. *)
Definition with_years (f : Downloads.ExplorerFilters) (years : list Z)
  : Downloads.ExplorerFilters :=
  Downloads.mkExplorerFilters years (Downloads.ef_week_range f)
    (Downloads.ef_selected_regions f) (Downloads.ef_show_district_filter f)
    (Downloads.ef_selected_districts f) (Downloads.ef_cases_filter f).

Definition with_cases_filter (f : Downloads.ExplorerFilters)
    (c : Downloads.CasesFilter) : Downloads.ExplorerFilters :=
  Downloads.mkExplorerFilters (Downloads.ef_selected_years f)
    (Downloads.ef_week_range f) (Downloads.ef_selected_regions f)
    (Downloads.ef_show_district_filter f)
    (Downloads.ef_selected_districts f) c.

End Explorer.

(** ** Landing page: [compute_quick_stats] of [Check/dashboard_app.py] *)

Module Landing.
Import Frame.
Local Open Scope Q_scope.

Record QuickStats : Type := mkQuickStats {
  qs_total_cases : N;
  qs_total_deaths : N;
  qs_overall_cfr : Q;
  qs_num_districts : nat;
  qs_num_regions : nat;
  qs_date_range : string;
  qs_total_records : nat
}.

(** [Series.min()] and [Series.max()] of the year column of a table with a
    first row. *)
Definition min_year (y : Z) (ys : list Z) : Z := fold_right Z.min y ys.
Definition max_year (y : Z) (ys : list Z) : Z := fold_right Z.max y ys.

(** [None] is the empty dictionary returned for an empty table. *)
Definition compute_quick_stats (df : DataFrame) : option QuickStats :=
  match df with
  | [] => None
  | r :: rest =>
      let total_cases := sumN (map cases df) in
      let total_deaths := sumN (map deaths df) in
      Some (mkQuickStats total_cases total_deaths
              (if (0 <? total_cases)%N
               then Risk.count total_deaths / Risk.count total_cases * 100
               else 0)
              (length (nodup string_dec (map district_clean df)))
              (length (nodup string_dec (map region df)))
              (Downloads.str (min_year (data_year r) (map data_year rest))
               ++ "-"
               ++ Downloads.str (max_year (data_year r) (map data_year rest)))
              (length df))
  end.

End Landing.

(** ** Translations: [get_text] of [lang_config_UPDATED.py] *)

Module Lang.

(** Outcome of a dictionary access: a text, or [KeyError]. *)
Inductive Lookup : Type := Text (s : string) | KeyError.

Section WithTranslations.

(** The nested dictionary [translations]: key, then language code. *)
Variable translations : string -> option (string -> option string).

(** [translations[key].get(language, translations[key]['en'])] evaluates
    its default argument, the English text, before the lookup. *)
Definition get_text (key language : string) : Lookup :=
  match translations key with
  | Some entry =>
      match entry "en"%string with
      | Some english =>
          match entry language with
          | Some text => Text text
          | None => Text english
          end
      | None => KeyError
      end
  | None => Text key
  end.

End WithTranslations.

End Lang.

(** ** LISA page: the multi-year summary table of [main] *)

Module LisaSummary.

(** Dictionary key of each cluster label. *)
Definition label_key (c : Lisa.Cluster) : string :=
  match c with
  | Lisa.NotSignificant => "not_significant"
  | Lisa.HighHigh => "high_high"
  | Lisa.LowHigh => "low_high"
  | Lisa.LowLow => "low_low"
  | Lisa.HighLow => "high_low"
  end.

Definition cluster_eqb (a b : Lisa.Cluster) : bool :=
  match a, b with
  | Lisa.NotSignificant, Lisa.NotSignificant
  | Lisa.HighHigh, Lisa.HighHigh
  | Lisa.LowHigh, Lisa.LowHigh
  | Lisa.LowLow, Lisa.LowLow
  | Lisa.HighLow, Lisa.HighLow => true
  | _, _ => false
  end.

Record SummaryRow : Type := mkSummaryRow {
  sm_year : Z;
  sm_total_cases : N;
  sm_hotspots : nat;
  sm_coldspots : nat;
  sm_hl_outliers : nat;
  sm_lh_outliers : nat;
  sm_not_significant : nat
}.

Section WithGetText.

(** The page imports [get_text] from the module [lang_config]; it is a
    parameter here: key, then language code. *)
Variable get_text : string -> string -> string.

(** [get_text(key, lang)] for the key of a cluster label. *)
Definition cluster_text (lang : string) (c : Lisa.Cluster) : string :=
  get_text (label_key c) lang.

(** [counts.get(get_text(key, lang), 0)] on [value_counts()] of the column
    [lisa_cluster].  The column holds the texts that
    [compute_lisa_for_year] wrote in the language of the session at the
    time it ran ([table_lang]); the function is cached by [(df, year)], so
    that need not be the language [lang] of the page that counts. *)
Definition count_label (table_lang lang : string) (label : Lisa.Cluster)
    (gdf_year : list Lisa.LisaRow) : nat :=
  length (filter (fun r => String.eqb
                             (cluster_text table_lang (Lisa.lisa_cluster r))
                             (cluster_text lang label))
                 gdf_year).

(** One summary row per entry of [lisa_results]. *)
Definition summary_data (table_lang lang : string)
    (lisa_results : list (Z * list Lisa.LisaRow)) : list SummaryRow :=
  map (fun entry =>
         let gdf_year := snd entry in
         mkSummaryRow (fst entry)
           (Frame.sumN (map Lisa.ls_cases gdf_year))
           (count_label table_lang lang Lisa.HighHigh gdf_year)
           (count_label table_lang lang Lisa.LowLow gdf_year)
           (count_label table_lang lang Lisa.HighLow gdf_year)
           (count_label table_lang lang Lisa.LowHigh gdf_year)
           (count_label table_lang lang Lisa.NotSignificant gdf_year))
      lisa_results.

End WithGetText.

(** An entry of [translations] with its English and French texts. *)
Definition entry (en fr : string) : string -> option string :=
  fun language =>
    if String.eqb language "en" then Some en
    else if String.eqb language "fr" then Some fr
    else None.

(** The five entries of [translations] in [lang_config_UPDATED.py] that
    label the clusters. *)
Definition cluster_translations (key : string)
  : option (string -> option string) :=
  if String.eqb key "high_high" then Some (entry "High-High" "Élevé-Élevé")
  else if String.eqb key "low_low" then Some (entry "Low-Low" "Faible-Faible")
  else if String.eqb key "high_low" then Some (entry "High-Low" "Élevé-Faible")
  else if String.eqb key "low_high" then Some (entry "Low-High" "Faible-Élevé")
  else if String.eqb key "not_significant"
  then Some (entry "Not Significant" "Non Significatif")
  else None.

(** [get_text] of [lang_config_UPDATED.py] on these entries; each has an
    English text, so that no lookup raises. *)
Definition updated_get_text (key language : string) : string :=
  match Lang.get_text cluster_translations key language with
  | Lang.Text s => s
  | Lang.KeyError => ""
  end.

End LisaSummary.

(** ** Predictions pages: which districts get a row *)

Module PredictionTable.
Import Frame.

(** [Series.unique()]: the distinct values in order of first appearance. *)
Fixpoint unique (l : list string) : list string :=
  match l with
  | [] => []
  | x :: l' => x :: filter (fun y => negb (String.eqb y x)) (unique l')
  end.

(** [df[df['region'].isin(selected_regions)]['district_clean'].unique()]. *)
Definition districts_to_predict (df : DataFrame)
    (selected_regions : list string) : list string :=
  unique (map district_clean
              (filter (fun r => existsb (String.eqb (region r))
                                        selected_regions) df)).

(** [district_data.iloc[0]['region']]; the table is not empty where the
    loop reads it. *)
Definition first_region (district_data : DataFrame) : string :=
  match district_data with
  | r :: _ => region r
  | [] => ""%string
  end.

(** The columns District and Region of [predictions_df], as the loop of
    [main] fills them: a district whose prediction is [None] adds no row. *)
Definition predicted_districts
    (make_simple_prediction : DataFrame -> string -> Z -> option R)
    (df : DataFrame) (selected_regions : list string) (weeks_ahead : Z)
  : list (string * string) :=
  flat_map (fun district =>
              match make_simple_prediction df district weeks_ahead with
              | Some _ =>
                  [(district, first_region (where_district district df))]
              | None => []
              end)
           (districts_to_predict df selected_regions).

Definition predicted_districts_bilingual :=
  predicted_districts PredictionsBilingual.make_simple_prediction.

Definition predicted_districts_original :=
  predicted_districts Predictions.make_simple_prediction.

End PredictionTable.

(** ** Overview page: the activity fields of [compute_kpis] *)

Module Activity.
Import Frame.
Local Open Scope Q_scope.

(** [Series.max()]: NaN ([None]) on an empty column. *)
Definition series_max (l : list Z) : option Z :=
  match l with
  | [] => None
  | x :: l' => Some (fold_right Z.max x l')
  end.

(** [column == value]; a comparison with NaN is false. *)
Definition equals (v : Z) (value : option Z) : bool :=
  match value with
  | Some x => v =? x
  | None => false
  end.

(** The fields of the KPI dictionary besides the three totals. *)
Record ActivityKPIs : Type := mkActivityKPIs {
  affected_districts : nat;
  total_districts : nat;
  latest_year : option Z;
  latest_week : option Z;
  current_week_cases : N;
  active_outbreaks : nat;
  prev_year_cases : N;
  yoy_change : Q
}.

Definition compute_kpis_activity (df : DataFrame) (selected_years : list Z)
    (selected_regions : list string) : ActivityKPIs :=
  let df_filtered :=
    Overview.filter_selection df selected_years selected_regions in
  let affected_districts :=
    length (nodup string_dec
              (map district_clean
                   (filter (fun r => (0 <? cases r)%N) df_filtered))) in
  let total_districts :=
    length (nodup string_dec (map district_clean df_filtered)) in
  let latest_year := series_max (map data_year df_filtered) in
  let latest_week :=
    series_max
      (map week_number
           (filter (fun r => equals (data_year r) latest_year) df_filtered)) in
  let current_week_data :=
    filter (fun r => equals (data_year r) latest_year
                     && equals (week_number r) latest_week) df_filtered in
  let current_week_cases := sumN (map cases current_week_data) in
  let active_outbreaks :=
    length (filter (fun r => (0 <? cases r)%N) current_week_data) in
  let prev_year_data :=
    filter (fun r => equals (data_year r)
                            (option_map (fun y => (y - 1)%Z) latest_year)
                     && equals (week_number r) latest_week) df_filtered in
  let prev_year_cases := sumN (map cases prev_year_data) in
  let yoy_change :=
    if (0 <? prev_year_cases)%N
    then (Risk.count current_week_cases - Risk.count prev_year_cases)
         / Risk.count prev_year_cases * 100
    else 0 in
  mkActivityKPIs affected_districts total_districts latest_year latest_week
    current_week_cases active_outbreaks prev_year_cases yoy_change.

End Activity.

(** ** The single-file dashboard [minimal_dashboard.py] *)

Module Minimal.
Import Frame.
Local Open Scope Q_scope.

(** [filtered_df]: years, regions and the week range. *)
Definition filtered_df (df : DataFrame) (selected_years : list Z)
    (selected_regions : list string) (week_range : Z * Z) : DataFrame :=
  filter (fun r => existsb (Z.eqb (data_year r)) selected_years
                   && existsb (String.eqb (region r)) selected_regions
                   && (fst week_range <=? week_number r)%Z
                   && (week_number r <=? snd week_range)%Z) df.

Record YearSummary : Type := mkYearSummary {
  ys_data_year : Z;
  ys_cases : N;
  ys_deaths : N;
  ys_cfr : Q
}.

(** [cases.replace(0, 1)]. *)
Definition replace_zero_by_one (c : N) : N := if (c =? 0)%N then 1%N else c.

(** [yearly_summary] with its CFR column
    [deaths / cases.replace(0, 1) * 100].  The script stops before this
    point when [filtered_df] is empty. *)
Definition yearly_summary (filtered : DataFrame) : list YearSummary :=
  map (fun y =>
         let g := filter (fun r => data_year r =? y)%Z filtered in
         let c := sumN (map cases g) in
         let d := sumN (map deaths g) in
         mkYearSummary y c d
           (Risk.count d / Risk.count (replace_zero_by_one c) * 100))
      (sort_by Z.ltb (nodup Z.eq_dec (map data_year filtered))).

End Minimal.

(** ** More sample tables *)

Module Samples.
Import Frame.

(** Three regions, five districts, two years; one district with deaths and
    no case, one week reported twice. *)
Definition surveillance : DataFrame :=
  [mkRow "Nord" "Garoua" 2023 50 4 1 1000;
   mkRow "Nord" "Garoua" 2024 1 12 2 1000;
   mkRow "Nord" "Garoua" 2024 2 9 0 1000;
   mkRow "Nord" "Guider" 2024 1 0 1 1500;
   mkRow "Est" "Bertoua" 2024 1 30 3 2000;
   mkRow "Est" "Bertoua" 2024 2 25 5 2000;
   mkRow "Est" "Batouri" 2024 2 7 0 800;
   mkRow "Sud" "Ebolowa" 2024 1 0 0 900;
   mkRow "Sud" "Ebolowa" 2024 2 3 0 900;
   mkRow "Sud" "Ebolowa" 2024 2 1 0 900].

Definition all_regions : list string := ["Nord"; "Est"; "Sud"]%string.

Definition first_spatial_row : Spatial.DistrictRow :=
  hd (Spatial.mkDistrictRow "" "" 0 0 None Overview.NaN Overview.NaN)
     (Spatial.prepare_spatial_data true surveillance 2024 all_regions).

Definition first_epidemic_week : Temporal.WeekRow :=
  hd (Temporal.mkWeekRow 0 0 0)
     (fst (Temporal.identify_epidemic_weeks surveillance [2023; 2024]
                                            all_regions 90)).

Definition first_summary_row : LisaSummary.SummaryRow :=
  hd (LisaSummary.mkSummaryRow 0 0 0 0 0 0 0)
     (LisaSummary.summary_data LisaSummary.updated_get_text "fr" "fr"
        (Lisa.lisa_results unit Scenario.moran_two_districts (5 # 100)
           ["Garoua"; "Maroua"]%string tt Scenario.quiet_2024 [2023; 2024])).

End Samples.

(** * Properties *)

(** ** Lists, sorting and averages *)

Section SortFacts.
Context {A : Type}.
Variable before : A -> A -> bool.

Lemma insert_by_perm (x : A) (l : list A) :
  Permutation (Frame.insert_by before x l) (x :: l).
Proof.
  induction l as [|y l IH]; simpl.
  - apply Permutation_refl.
  - destruct (before y x).
    + apply perm_trans with (y :: x :: l).
      * now apply perm_skip.
      * apply perm_swap.
    + apply Permutation_refl.
Qed.

Lemma sort_by_perm (l : list A) : Permutation (Frame.sort_by before l) l.
Proof.
  induction l as [|x l IH]; simpl.
  - apply perm_nil.
  - apply perm_trans with (x :: Frame.sort_by before l).
    + apply insert_by_perm.
    + now apply perm_skip.
Qed.

Lemma sort_by_length (l : list A) :
  length (Frame.sort_by before l) = length l.
Proof. apply Permutation_length, sort_by_perm. Qed.

Lemma sort_by_Forall (P : A -> Prop) (l : list A) :
  Forall P l -> Forall P (Frame.sort_by before l).
Proof.
  intros H. eapply Permutation_Forall; [|exact H].
  apply Permutation_sym, sort_by_perm.
Qed.

End SortFacts.

Section SliceFacts.
Context {A : Type}.
Variable P : A -> Prop.

Lemma firstn_Forall (n : nat) (l : list A) :
  Forall P l -> Forall P (firstn n l).
Proof.
  intros H. rewrite <- (firstn_skipn n l) in H.
  now apply Forall_app in H.
Qed.

Lemma skipn_Forall (n : nat) (l : list A) : Forall P l -> Forall P (skipn n l).
Proof.
  intros H. rewrite <- (firstn_skipn n l) in H.
  now apply Forall_app in H.
Qed.

Lemma head_Forall (n : nat) (l : list A) :
  Forall P l -> Forall P (Frame.head n l).
Proof. apply firstn_Forall. Qed.

Lemma tail_Forall (n : nat) (l : list A) :
  Forall P l -> Forall P (Frame.tail n l).
Proof. apply skipn_Forall. Qed.

End SliceFacts.

Lemma head_length {A : Type} (n : nat) (l : list A) :
  length (Frame.head n l) = Nat.min n (length l).
Proof. apply length_firstn. Qed.

Lemma tail_length {A : Type} (n : nat) (l : list A) :
  length (Frame.tail n l) = Nat.min n (length l).
Proof. unfold Frame.tail. rewrite length_skipn. lia. Qed.

Lemma nlargest_length (n : nat) (df : Frame.DataFrame) :
  length (Frame.nlargest n df) = Nat.min n (length df).
Proof. unfold Frame.nlargest. now rewrite length_firstn, sort_by_length. Qed.

Lemma nsmallest_length (n : nat) (df : Frame.DataFrame) :
  length (Frame.nsmallest n df) = Nat.min n (length df).
Proof. unfold Frame.nsmallest. now rewrite length_firstn, sort_by_length. Qed.

Lemma nlargest_Forall (P : Frame.Row -> Prop) (n : nat)
    (df : Frame.DataFrame) :
  Forall P df -> Forall P (Frame.nlargest n df).
Proof. intros H. now apply firstn_Forall, sort_by_Forall. Qed.

Lemma nsmallest_Forall (P : Frame.Row -> Prop) (n : nat)
    (df : Frame.DataFrame) :
  Forall P df -> Forall P (Frame.nsmallest n df).
Proof. intros H. now apply firstn_Forall, sort_by_Forall. Qed.

Lemma real_count_nonneg (c : N) : (0 <= Frame.real_count c)%R.
Proof. unfold Frame.real_count. apply IZR_le. lia. Qed.

Lemma sumN_const (c : N) (rows : Frame.DataFrame) :
  Forall (fun r => Frame.cases r = c) rows ->
  Frame.sumN (map Frame.cases rows) = (c * N.of_nat (length rows))%N.
Proof.
  induction 1 as [|r rows Hr _ IH].
  - simpl. lia.
  - cbn [map Frame.sumN fold_right length].
    change (fold_right N.add 0%N (map Frame.cases rows))
      with (Frame.sumN (map Frame.cases rows)).
    rewrite IH, Hr. lia.
Qed.

Lemma mean_const (c : N) (rows : Frame.DataFrame) :
  (0 < length rows)%nat ->
  Forall (fun r => Frame.cases r = c) rows ->
  Frame.mean (map Frame.cases rows) = Frame.real_count c.
Proof.
  intros Hlen Hall. unfold Frame.mean, Frame.real_count.
  rewrite (sumN_const c rows Hall), length_map, INR_IZR_INZ.
  rewrite N2Z.inj_mul, nat_N_Z, mult_IZR.
  field. apply not_0_IZR. lia.
Qed.

Example nlargest_takes_latest_weeks :
  map Frame.week_number
      (Frame.nlargest 2
         [Frame.mkRow "Nord" "Garoua" 2024 3 7 0 1000;
          Frame.mkRow "Nord" "Garoua" 2023 52 9 0 1000;
          Frame.mkRow "Nord" "Garoua" 2024 1 8 0 1000;
          Frame.mkRow "Nord" "Garoua" 2024 2 6 0 1000])
  = [3; 2].
Proof. reflexivity. Qed.

(** ** The two forecasts *)

Lemma dampening_first_week : Rmax (1 - (1 - 1) * (5 / 100)) (7 / 10) = 1%R.
Proof. unfold Rmax. destruct (Rle_dec _ _); lra. Qed.

Lemma float_pow_one_exponent (x : R) :
  (0 <= x)%R -> PredictionsBilingual.float_pow x 1 = x.
Proof.
  intros Hx. unfold PredictionsBilingual.float_pow.
  destruct (Req_dec_T x 0) as [E|NE].
  - destruct (Req_dec_T 1 0); lra.
  - apply Rpower_1. lra.
Qed.

Lemma float_pow_one_base (y : R) : PredictionsBilingual.float_pow 1 y = 1%R.
Proof.
  unfold PredictionsBilingual.float_pow.
  destruct (Req_dec_T 1 0) as [E|_]; [lra|].
  unfold Rpower. rewrite ln_1, Rmult_0_r. apply exp_0.
Qed.

Lemma Rmax_floor (x : R) : (0 <= x)%R -> Rmax 0 x = x.
Proof. intros Hx. unfold Rmax. destruct (Rle_dec 0 x); lra. Qed.

Lemma bilingual_none_iff (df : Frame.DataFrame) (district : string)
    (weeks_ahead : Z) :
  PredictionsBilingual.make_simple_prediction df district weeks_ahead = None
  <-> (length (Frame.where_district district df) < 12)%nat.
Proof.
  unfold PredictionsBilingual.make_simple_prediction.
  destruct (Nat.ltb_spec (length (Frame.where_district district df)) 12);
    split; intros; try reflexivity; try assumption; try discriminate; lia.
Qed.

Lemma predictions_none_iff (df : Frame.DataFrame) (district : string)
    (weeks_ahead : Z) :
  Predictions.make_simple_prediction df district weeks_ahead = None
  <-> (length (Frame.where_district district df) < 4)%nat.
Proof.
  unfold Predictions.make_simple_prediction.
  rewrite tail_length.
  destruct (Nat.ltb_spec
              (Nat.min 12 (length (Frame.where_district district df))) 4);
    split; intros; try reflexivity; try discriminate; lia.
Qed.

Ltac eval_frame :=
  cbv -[Rplus Rmult Rdiv Rinv Rminus Ropp IZR INR Rmax Rlt_dec Req_dec_T Rpower
        PredictionsBilingual.float_pow].

Lemma history8_predictions :
  Predictions.make_simple_prediction Scenario.history8 "Garoua" 1
  = Some (145 / 2)%R.
Proof.
  eval_frame. f_equal. simpl INR.
  rewrite Rmax_floor; lra.
Qed.

Lemma history8_bilingual :
  PredictionsBilingual.make_simple_prediction Scenario.history8 "Garoua" 1
  = None.
Proof. reflexivity. Qed.

Lemma history12_bilingual :
  PredictionsBilingual.make_simple_prediction Scenario.history12 "Garoua" 1
  = Some 200%R.
Proof.
  eval_frame. f_equal. simpl INR.
  rewrite dampening_first_week.
  destruct (Rlt_dec _ _) as [_|N]; [|exfalso; apply N; lra].
  rewrite float_pow_one_exponent by lra.
  rewrite Rmax_floor; lra.
Qed.

Lemma bilingual_constant (df : Frame.DataFrame) (district : string)
    (weeks_ahead : Z) (c : N) :
  (12 <= length (Frame.where_district district df))%nat ->
  Forall (fun r => Frame.cases r = c) (Frame.where_district district df) ->
  PredictionsBilingual.make_simple_prediction df district weeks_ahead
  = Some (Frame.real_count c).
Proof.
  intros Hlen Hall.
  unfold PredictionsBilingual.make_simple_prediction.
  set (dd := Frame.where_district district df) in *.
  destruct (Nat.ltb_spec (length dd) 12) as [Hlt|_]; [lia|].
  set (recent := Frame.nlargest 12 dd).
  assert (Hrec : Forall (fun r => Frame.cases r = c) recent)
    by now apply nlargest_Forall.
  assert (Lrec : length recent = 12%nat)
    by (unfold recent; rewrite nlargest_length; lia).
  cbv zeta. rewrite Lrec. simpl Nat.leb.
  rewrite (mean_const c (Frame.nlargest 4 recent)).
  2: rewrite nlargest_length; lia.
  2: now apply nlargest_Forall.
  rewrite (mean_const c (Frame.nsmallest 8 (Frame.nlargest 12 recent))).
  2: rewrite nsmallest_length, nlargest_length; lia.
  2: now apply nsmallest_Forall, nlargest_Forall.
  assert (Htrend : (if Rlt_dec 0 (Frame.real_count c)
                    then Frame.real_count c / Frame.real_count c else 1)%R
                   = 1%R)
    by (destruct (Rlt_dec 0 (Frame.real_count c)); [field; lra | reflexivity]).
  rewrite Htrend, float_pow_one_base, Rmult_1_r.
  rewrite (mean_const c recent) by (trivial; lia).
  now rewrite Rmax_floor by apply real_count_nonneg.
Qed.

Lemma predictions_constant (df : Frame.DataFrame) (district : string)
    (weeks_ahead : Z) (c : N) :
  (4 <= length (Frame.where_district district df))%nat ->
  Forall (fun r => Frame.cases r = c) (Frame.where_district district df) ->
  Predictions.make_simple_prediction df district weeks_ahead
  = Some (Frame.real_count c).
Proof.
  intros Hlen Hall.
  unfold Predictions.make_simple_prediction.
  set (dd := Frame.where_district district df) in *.
  set (recent := Frame.tail 12 dd).
  assert (Hrec : Forall (fun r => Frame.cases r = c) recent)
    by now apply tail_Forall.
  assert (Lrec : (4 <= length recent)%nat)
    by (unfold recent; rewrite tail_length; lia).
  destruct (Nat.ltb_spec (length recent) 4) as [Hlt|_]; [lia|].
  cbv zeta.
  rewrite (mean_const c (Frame.tail 4 recent)).
  2: rewrite tail_length; lia.
  2: now apply tail_Forall.
  destruct (8 <=? length recent)%nat.
  - rewrite (mean_const c (Frame.head 4 recent)).
    2: rewrite head_length; lia.
    2: now apply head_Forall.
    replace (Frame.real_count c
             + (Frame.real_count c - Frame.real_count c) * (5 / 10))%R
      with (Frame.real_count c) by ring.
    now rewrite Rmax_floor by apply real_count_nonneg.
  - now rewrite Rmax_floor by apply real_count_nonneg.
Qed.

Example forecasts_differ_on_twelve_observations :
  PredictionsBilingual.make_simple_prediction Scenario.history12 "Garoua" 1
  = Some 200%R
  /\ Predictions.make_simple_prediction Scenario.history12 "Garoua" 1
     = Some (145 / 2)%R.
Proof.
  split; [exact history12_bilingual|].
  eval_frame. f_equal. simpl INR. rewrite Rmax_floor; lra.
Qed.

(** C1 (as amended).  On the eight observations [5,5,5,5,50,50,50,50] with
    a horizon of one week, the bilingual page gives no prediction (it wants
    twelve observations) and the other predictions page gives
    72.5 = 50 + 0.5 * (50 - 5).  On the twelve observations
    [5 x 8, 50 x 4] the bilingual page gives 200: the average of all twelve
    (20) times the trend factor 50/5 = 10 raised to the dampening 1.0. *)
Theorem scenario_history_forecasts :
  PredictionsBilingual.make_simple_prediction Scenario.history8 "Garoua" 1 = None
  /\ Predictions.make_simple_prediction Scenario.history8 "Garoua" 1
     = Some (145 / 2)%R
  /\ PredictionsBilingual.make_simple_prediction Scenario.history12 "Garoua" 1
     = Some 200%R.
Proof.
  split; [exact history8_bilingual|].
  split; [exact history8_predictions | exact history12_bilingual].
Qed.

(** C1, counterexample.  Neither page returns 500 on the eight
    observations: one returns nothing, the other a value below 500. *)
Lemma scenario_history_never_500 :
  PredictionsBilingual.make_simple_prediction Scenario.history8 "Garoua" 1 = None
  /\ exists v : R,
       Predictions.make_simple_prediction Scenario.history8 "Garoua" 1 = Some v
       /\ (v < 500)%R.
Proof.
  split; [exact history8_bilingual|].
  exists (145 / 2)%R. split; [exact history8_predictions | lra].
Qed.

(** C2 (as amended).  The second predictions page gives no prediction
    exactly when the district has fewer than 4 observations, the bilingual
    page exactly when it has fewer than 12; otherwise each returns a
    number, and that number is not negative. *)
Theorem insufficient_history_thresholds :
  forall (df : Frame.DataFrame) (district : string) (weeks_ahead : Z),
    (Predictions.make_simple_prediction df district weeks_ahead = None
     <-> (length (Frame.where_district district df) < 4)%nat)
    /\ (PredictionsBilingual.make_simple_prediction df district weeks_ahead = None
        <-> (length (Frame.where_district district df) < 12)%nat)
    /\ ((4 <= length (Frame.where_district district df))%nat ->
        exists v : R,
          Predictions.make_simple_prediction df district weeks_ahead = Some v
          /\ (0 <= v)%R)
    /\ ((12 <= length (Frame.where_district district df))%nat ->
        exists v : R,
          PredictionsBilingual.make_simple_prediction df district weeks_ahead
          = Some v /\ (0 <= v)%R).
Proof.
  intros df district weeks_ahead.
  split; [apply predictions_none_iff|].
  split; [apply bilingual_none_iff|].
  split; intros Hlen.
  - unfold Predictions.make_simple_prediction.
    rewrite tail_length.
    destruct (Nat.ltb_spec
                (Nat.min 12 (length (Frame.where_district district df))) 4);
      [lia|].
    eexists. split; [reflexivity | apply Rmax_l].
  - unfold PredictionsBilingual.make_simple_prediction.
    destruct (Nat.ltb_spec (length (Frame.where_district district df)) 12);
      [lia|].
    eexists. split; [reflexivity | apply Rmax_l].
Qed.

(** C2, counterexample.  A district with eight observations, which is at
    least four, gets no prediction from the bilingual page. *)
Lemma eight_observations_no_prediction :
  exists (df : Frame.DataFrame) (district : string) (weeks_ahead : Z),
    (4 <= length (Frame.where_district district df))%nat
    /\ PredictionsBilingual.make_simple_prediction df district weeks_ahead = None.
Proof.
  exists Scenario.history8, "Garoua"%string, 1.
  split; [vm_compute; lia | exact history8_bilingual].
Qed.

(** C10 (as amended).  The two forecasts agree on a district with fewer
    than 4 observations (neither predicts) and on a district with at least
    12 observations that all carry the same count [c] (both predict [c]),
    whatever the horizon. *)
Theorem forecasts_agree_short_or_constant :
  forall (df : Frame.DataFrame) (district : string) (weeks_ahead : Z),
    ((length (Frame.where_district district df) < 4)%nat ->
     PredictionsBilingual.make_simple_prediction df district weeks_ahead = None
     /\ Predictions.make_simple_prediction df district weeks_ahead = None)
    /\ (forall c : N,
          (12 <= length (Frame.where_district district df))%nat ->
          Forall (fun r => Frame.cases r = c)
                 (Frame.where_district district df) ->
          PredictionsBilingual.make_simple_prediction df district weeks_ahead
          = Some (Frame.real_count c)
          /\ Predictions.make_simple_prediction df district weeks_ahead
             = Some (Frame.real_count c)).
Proof.
  intros df district weeks_ahead. split.
  - intros Hlen. split.
    + apply bilingual_none_iff. lia.
    + now apply predictions_none_iff.
  - intros c Hlen Hall. split.
    + now apply bilingual_constant.
    + apply predictions_constant; [lia | assumption].
Qed.

(** C10, witness: twelve weeks of 7 cases each, horizon 4. *)
Lemma forecasts_agree_constant_witness :
  PredictionsBilingual.make_simple_prediction
    (Scenario.weekly 1 (repeat 7%N 12)) "Garoua" 4 = Some (Frame.real_count 7)
  /\ Predictions.make_simple_prediction
       (Scenario.weekly 1 (repeat 7%N 12)) "Garoua" 4 = Some (Frame.real_count 7).
Proof.
  apply (proj2 (forecasts_agree_short_or_constant
                  (Scenario.weekly 1 (repeat 7%N 12)) "Garoua" 4) 7%N).
  - vm_compute. lia.
  - vm_compute. repeat constructor.
Defined.

(** C10, counterexample.  On the eight observations [5,5,5,5,50,50,50,50]
    with horizon 1 the bilingual page returns nothing and the other page
    returns 72.5. *)
Lemma forecasts_differ_on_eight_observations :
  exists (df : Frame.DataFrame) (district : string) (weeks_ahead : Z),
    PredictionsBilingual.make_simple_prediction df district weeks_ahead = None
    /\ Predictions.make_simple_prediction df district weeks_ahead
       = Some (145 / 2)%R.
Proof.
  exists Scenario.history8, "Garoua"%string, 1.
  split; [exact history8_bilingual | exact history8_predictions].
Qed.

(** ** Percentiles and risk tiers *)

Lemma insert_by_sorted (x : N) (l : list N) :
  StronglySorted N.le l -> StronglySorted N.le (Frame.insert_by N.ltb x l).
Proof.
  induction 1 as [|y l Hs IH Hy]; simpl.
  - repeat constructor.
  - destruct (N.ltb_spec y x) as [Hlt|Hge].
    + constructor; [exact IH|].
      eapply Permutation_Forall.
      * apply Permutation_sym, insert_by_perm.
      * constructor; [lia | exact Hy].
    + constructor; [now constructor|].
      constructor; [exact Hge|].
      eapply Forall_impl; [|exact Hy]. intros z Hz. cbv beta in Hz. lia.
Qed.

Lemma sort_by_sorted (l : list N) : StronglySorted N.le (Frame.sort_by N.ltb l).
Proof.
  induction l as [|x l IH]; simpl.
  - constructor.
  - now apply insert_by_sorted.
Qed.

Lemma sorted_nth_le (s : list N) :
  StronglySorted N.le s ->
  forall i j : nat,
    (i <= j)%nat -> (j < length s)%nat -> (nth i s 0 <= nth j s 0)%N.
Proof.
  induction 1 as [|a l Hs IH Ha]; intros i j Hij Hj.
  - simpl in Hj. lia.
  - destruct j as [|j].
    + assert (i = 0%nat) by lia. subst i. simpl. lia.
    + simpl in Hj. destruct i as [|i]; simpl.
      * rewrite Forall_forall in Ha. apply Ha, nth_In. lia.
      * apply IH; lia.
Qed.

Section Quantiles.
Local Open Scope Q_scope.

Lemma count_le (a b : N) : (a <= b)%N -> Risk.count a <= Risk.count b.
Proof. intros H. unfold Risk.count. rewrite <- Zle_Qle. lia. Qed.

Lemma Qltb_lt (a b : Q) : Risk.Qltb a b = true <-> a < b.
Proof.
  unfold Risk.Qltb. rewrite negb_true_iff, <- not_true_iff_false, Qle_bool_iff.
  split; [apply Qnot_le_lt | apply Qlt_not_le].
Qed.

End Quantiles.

Section RiskTiers.
Local Open Scope Q_scope.

Lemma exceeds_mono (v1 v2 : Q) (p : option Q) :
  v2 <= v1 -> Risk.exceeds v2 p = true -> Risk.exceeds v1 p = true.
Proof.
  destruct p as [t|]; simpl; [|discriminate].
  rewrite !Qltb_lt. intros Hle Hlt. now apply Qlt_le_trans with v2.
Qed.

(** The tier as the chain of comparisons of [classify_risk_level]. *)
Lemma tier_chain (v : Q) (data : Frame.DataFrame) :
  Risk.tier v data =
  if Risk.exceeds v (Risk.quantile (90 # 100) (map Frame.cases data))
  then Risk.Critical
  else if Risk.exceeds v (Risk.quantile (75 # 100) (map Frame.cases data))
  then Risk.High
  else if Risk.exceeds v (Risk.quantile (50 # 100) (map Frame.cases data))
  then Risk.Moderate
  else Risk.Low.
Proof.
  unfold Risk.tier, Risk.classify_risk_level. cbv zeta.
  repeat match goal with |- context [if ?b then _ else _] => destruct b end;
    reflexivity.
Qed.

End RiskTiers.

(** *** Ties at the thresholds, in binary64 *)

Section Binary64.
Import Floats.
Local Open Scope float_scope.







End Binary64.

Section Binary64Scenarios.
Import Floats.
Local Open Scope float_scope.


Example ranking_totals_tiers :
  Risk64.quantile 0.75 (map Frame.cases Scenario.ranking_totals) = 80
  /\ Risk64.tier 80 Scenario.ranking_totals = Risk.Moderate
  /\ Risk64.tier 80.1 Scenario.ranking_totals = Risk.High.
Proof. repeat split; vm_compute; reflexivity. Qed.

End Binary64Scenarios.

Section RiskMonotone.
Local Open Scope Q_scope.

(** C6.  For fixed reference data the tier is monotone in the value: a
    value at least as large gets a tier of at least the same priority. *)
Theorem tier_monotone :
  forall (district_data : Frame.DataFrame) (value1 value2 : Q),
    value2 <= value1 ->
    (Risk.priority (Risk.tier value2 district_data)
     <= Risk.priority (Risk.tier value1 district_data))%nat.
Proof.
  intros data v1 v2 Hle. rewrite !tier_chain.
  set (cs := map Frame.cases data).
  pose proof (exceeds_mono v1 v2 (Risk.quantile (90 # 100) cs) Hle) as M90.
  pose proof (exceeds_mono v1 v2 (Risk.quantile (75 # 100) cs) Hle) as M75.
  pose proof (exceeds_mono v1 v2 (Risk.quantile (50 # 100) cs) Hle) as M50.
  destruct (Risk.exceeds v2 (Risk.quantile (90 # 100) cs));
    [rewrite M90 by reflexivity; simpl; lia|].
  destruct (Risk.exceeds v2 (Risk.quantile (75 # 100) cs));
    [rewrite M75 by reflexivity;
     destruct (Risk.exceeds v1 (Risk.quantile (90 # 100) cs)); simpl; lia|].
  destruct (Risk.exceeds v2 (Risk.quantile (50 # 100) cs));
    [rewrite M50 by reflexivity|];
    destruct (Risk.exceeds v1 (Risk.quantile (90 # 100) cs));
    destruct (Risk.exceeds v1 (Risk.quantile (75 # 100) cs));
    try destruct (Risk.exceeds v1 (Risk.quantile (50 # 100) cs));
    simpl; lia.
Qed.

End RiskMonotone.

(** C6, witness: 80 and 100 against [100, 80, 50, 20, 5]. *)
Lemma tier_monotone_witness :
  (Risk.priority (Risk.tier 80 Scenario.ranking_totals)
   <= Risk.priority (Risk.tier 100 Scenario.ranking_totals))%nat.
Proof.
  apply (tier_monotone Scenario.ranking_totals 100 80).
  vm_compute. discriminate.
Defined.

(** ** Overview aggregates *)

Lemma sumN_perm (l l' : list N) :
  Permutation l l' -> Frame.sumN l = Frame.sumN l'.
Proof.
  induction 1 as [|x l l' _ IH|x y l|l l' l'' _ IH1 _ IH2];
    unfold Frame.sumN in *; simpl.
  - reflexivity.
  - now rewrite IH.
  - lia.
  - congruence.
Qed.

Lemma sumN_cons (x : N) (l : list N) :
  Frame.sumN (x :: l) = (x + Frame.sumN l)%N.
Proof. reflexivity. Qed.

Lemma sumN_pointwise {K : Type} (f g : K -> N) (keys : list K) :
  Frame.sumN (map (fun k => f k + g k)%N keys)
  = (Frame.sumN (map f keys) + Frame.sumN (map g keys))%N.
Proof.
  induction keys as [|k keys IH]; [reflexivity|].
  cbn [map]. rewrite !sumN_cons, IH. lia.
Qed.

(** A row's count is found once among distinct keys that hold its region. *)
Lemma sumN_row_share (x : string) (c : N) (keys : list string) :
  NoDup keys ->
  Frame.sumN (map (fun k => if String.eqb x k then c else 0%N) keys)
  = if in_dec string_dec x keys then c else 0%N.
Proof.
  induction 1 as [|k keys Hk Hnd IH]; [reflexivity|].
  cbn [map]. rewrite sumN_cons, IH.
  destruct (String.eqb_spec x k) as [->|NE].
  - destruct (in_dec string_dec k keys) as [I|_]; [contradiction|].
    destruct (in_dec string_dec k (k :: keys)) as [_|N]; [lia|].
    exfalso. apply N. now left.
  - destruct (in_dec string_dec x keys) as [I|NI];
      destruct (in_dec string_dec x (k :: keys)) as [I'|NI']; try lia.
    + exfalso. apply NI'. now right.
    + destruct I' as [E|I']; [congruence | contradiction].
Qed.

(** Grouping by region splits the case total: no row is lost or counted
    twice. *)
Lemma group_totals_split (rows : Frame.DataFrame) (keys : list string) :
  NoDup keys ->
  (forall r, In r rows -> In (Frame.region r) keys) ->
  Frame.sumN
    (map (fun k =>
            Frame.sumN
              (map Frame.cases
                   (filter (fun r => String.eqb (Frame.region r) k) rows)))
         keys)
  = Frame.sumN (map Frame.cases rows).
Proof.
  intros Hnd. induction rows as [|r rows IH]; intros Hin.
  - simpl. clear Hnd Hin. induction keys as [|k keys IHk]; [reflexivity|].
    cbn [map]. now rewrite sumN_cons, IHk.
  - cbn [map]. rewrite sumN_cons.
    rewrite <- IH by (intros; apply Hin; now right).
    assert (Hr : Frame.cases r
                 = Frame.sumN
                     (map (fun k => if String.eqb (Frame.region r) k
                                    then Frame.cases r else 0%N) keys)).
    { rewrite sumN_row_share by exact Hnd.
      destruct (in_dec string_dec (Frame.region r) keys) as [_|N];
        [reflexivity|].
      exfalso. apply N, Hin. now left. }
    rewrite Hr at 1. rewrite <- sumN_pointwise.
    f_equal. apply map_ext. intros k. cbn [filter].
    destruct (String.eqb (Frame.region r) k); reflexivity.
Qed.

(** C7.  The per-region case totals of [get_regional_data] add up to the
    case total of [compute_kpis] for the same years and regions. *)
Theorem regional_totals_add_up :
  forall (df : Frame.DataFrame) (selected_years : list Z)
         (selected_regions : list string),
    Frame.sumN
      (map Overview.rg_total_cases
           (Overview.get_regional_data df selected_years selected_regions))
    = Overview.total_cases
        (Overview.compute_kpis df selected_years selected_regions).
Proof.
  intros df ys rs.
  unfold Overview.get_regional_data, Overview.compute_kpis.
  set (dff := Overview.filter_selection df ys rs).
  cbv zeta. cbn [Overview.total_cases].
  rewrite (sumN_perm _ _ (Permutation_map _ (sort_by_perm _ _))).
  rewrite map_map. cbn [Overview.rg_total_cases].
  rewrite (sumN_perm _ _ (Permutation_map _ (sort_by_perm _ _))).
  apply group_totals_split.
  - apply NoDup_nodup.
  - intros r Hr. apply nodup_In, in_map, Hr.
Qed.

Example regional_totals_example :
  map Overview.rg_total_cases
      (Overview.get_regional_data
         [Frame.mkRow "Nord" "Garoua" 2024 1 3 1 1000;
          Frame.mkRow "Est" "Bertoua" 2024 1 10 2 2000;
          Frame.mkRow "Nord" "Guider" 2024 2 4 0 1500;
          Frame.mkRow "Sud" "Ebolowa" 2023 1 9 0 900]
         [2024] ["Nord"; "Est"; "Sud"]%string)
  = [10; 7]%N.
Proof. vm_compute. reflexivity. Qed.

Section CaseFatality.
Local Open Scope Q_scope.

Lemma sumN_deaths_le_cases (rows : Frame.DataFrame) :
  Forall (fun r => (Frame.deaths r <= Frame.cases r)%N) rows ->
  (Frame.sumN (map Frame.deaths rows) <= Frame.sumN (map Frame.cases rows))%N.
Proof.
  induction 1 as [|r rows Hr _ IH]; cbn [map]; [reflexivity|].
  rewrite !sumN_cons. lia.
Qed.

Lemma filter_selection_Forall (P : Frame.Row -> Prop) (df : Frame.DataFrame)
    (ys : list Z) (rs : list string) :
  Forall P df -> Forall P (Overview.filter_selection df ys rs).
Proof.
  intros H. unfold Overview.filter_selection.
  rewrite Forall_forall in *. intros r Hr. apply filter_In in Hr. now apply H.
Qed.

Lemma percentage_bounds (d c : N) :
  (0 < c)%N -> (d <= c)%N ->
  0 <= Risk.count d / Risk.count c * 100
  /\ Risk.count d / Risk.count c * 100 <= 100.
Proof.
  intros Hc Hd.
  assert (Qc : 0 < Risk.count c)
    by (unfold Risk.count; change 0 with (inject_Z 0); rewrite <- Zlt_Qlt; lia).
  assert (Qd : 0 <= Risk.count d)
    by (unfold Risk.count; change 0 with (inject_Z 0); rewrite <- Zle_Qle; lia).
  pose proof (count_le d c Hd) as Qdc.
  assert (E : Risk.count d / Risk.count c * Risk.count c == Risk.count d).
  { field. intros Z. rewrite Z in Qc. now apply Qlt_irrefl in Qc. }
  set (x := Risk.count d / Risk.count c) in *.
  split; nra.
Qed.

(** The overall CFR of [compute_kpis]: the quotient of the totals times 100
    when there are cases, 0 when there are none, and within [0, 100] when
    no row has more deaths than cases. *)
Theorem overall_cfr_guarded (df : Frame.DataFrame) (ys : list Z)
    (rs : list string) :
  let k := Overview.compute_kpis df ys rs in
  ((0 < Overview.total_cases k)%N ->
   Overview.overall_cfr k
   = Risk.count (Overview.total_deaths k) / Risk.count (Overview.total_cases k)
     * 100)
  /\ (Overview.total_cases k = 0%N -> Overview.overall_cfr k = 0)
  /\ (Forall (fun r => (Frame.deaths r <= Frame.cases r)%N) df ->
      0 <= Overview.overall_cfr k /\ Overview.overall_cfr k <= 100).
Proof.
  unfold Overview.compute_kpis. cbv zeta.
  cbn [Overview.total_cases Overview.total_deaths Overview.overall_cfr].
  set (dff := Overview.filter_selection df ys rs).
  destruct (N.ltb_spec 0 (Frame.sumN (map Frame.cases dff))) as [Hpos|Hz].
  - repeat split; try reflexivity; try lia.
    + apply percentage_bounds; trivial.
      now apply sumN_deaths_le_cases, filter_selection_Forall.
    + apply percentage_bounds; trivial.
      now apply sumN_deaths_le_cases, filter_selection_Forall.
  - repeat split; try reflexivity; try lia; discriminate.
Qed.

End CaseFatality.

(** C4, the failing input.  For a selection whose case total is 0 and whose
    death total is 1, [compute_kpis] reports a CFR of 0, while the yearly
    and the regional tables report an infinite CFR: [fillna(0)] replaces
    NaN only. *)
Theorem cfr_infinite_without_cases :
  Overview.overall_cfr
    (Overview.compute_kpis Scenario.death_without_case [2024]
                           ["Nord"%string]) = 0%Q
  /\ map Overview.yr_cfr
         (Overview.get_temporal_data Scenario.death_without_case [2024]
                                     ["Nord"%string])
     = [Overview.Inf]
  /\ map Overview.rg_cfr
         (Overview.get_regional_data Scenario.death_without_case [2024]
                                     ["Nord"%string])
     = [Overview.Inf].
Proof. repeat split; vm_compute; reflexivity. Qed.

(** ** LISA labels *)

Lemma cluster_label_cases (q : Z) (p_sim : Q) :
  Lisa.cluster_label q p_sim =
  if Lisa.sig_mask p_sim then
    if q =? 4 then Lisa.HighLow
    else if q =? 3 then Lisa.LowLow
    else if q =? 2 then Lisa.LowHigh
    else if q =? 1 then Lisa.HighHigh
    else Lisa.NotSignificant
  else Lisa.NotSignificant.
Proof.
  unfold Lisa.cluster_label, Lisa.quadrant_labels. cbn [fold_left fst snd].
  destruct (Lisa.sig_mask p_sim); rewrite ?andb_true_r, ?andb_false_r;
    [|reflexivity].
  destruct (Z.eqb_spec q 4), (Z.eqb_spec q 3), (Z.eqb_spec q 2),
    (Z.eqb_spec q 1); reflexivity || lia.
Qed.

(** The label of a district is cut at the constant 0.05: "not significant"
    when its p-value is 0.05 or more, and otherwise the label of its
    quadrant code (1 High-High, 2 Low-High, 3 Low-Low, 4 High-Low). *)
Theorem labels_cut_at_five_percent :
  forall (q : Z) (p_sim : Q),
    ((5 # 100 <= p_sim)%Q -> Lisa.cluster_label q p_sim = Lisa.NotSignificant)
    /\ ((p_sim < 5 # 100)%Q ->
        Lisa.cluster_label q p_sim
        = match q with
          | 1 => Lisa.HighHigh
          | 2 => Lisa.LowHigh
          | 3 => Lisa.LowLow
          | 4 => Lisa.HighLow
          | _ => Lisa.NotSignificant
          end).
Proof.
  intros q p_sim. rewrite cluster_label_cases. unfold Lisa.sig_mask. split.
  - intros Hge. destruct (Risk.Qltb p_sim (5 # 100)) eqn:E; [|reflexivity].
    apply Qltb_lt in E. now apply Qlt_not_le in E.
  - intros Hlt. apply Qltb_lt in Hlt. rewrite Hlt.
    destruct (Z.eqb_spec q 4) as [->|N4]; [reflexivity|].
    destruct (Z.eqb_spec q 3) as [->|N3]; [reflexivity|].
    destruct (Z.eqb_spec q 2) as [->|N2]; [reflexivity|].
    destruct (Z.eqb_spec q 1) as [->|N1]; [reflexivity|].
    destruct q as [|[q|q|]|q]; try reflexivity; try congruence;
      destruct q as [q|q|]; try reflexivity; try congruence;
      destruct q as [q|q|]; try reflexivity; congruence.
Qed.

(** C3, the failing input.  With the slider at 0.01, a district whose
    p-value is 0.03 is still labelled High-High: the labels are cut at the
    constant 0.05, and the result is the same for every slider value. *)
Theorem slider_does_not_reach_labels :
  Lisa.lisa_results unit Scenario.moran_two_districts (1 # 100)
    ["Garoua"; "Maroua"]%string tt Scenario.two_districts_2024 [2024]
  = [(2024,
      [Lisa.mkLisaRow "Garoua" 5 1 (3 # 100) Lisa.HighHigh;
       Lisa.mkLisaRow "Maroua" 2 3 (7 # 100) Lisa.NotSignificant])]
  /\ (1 # 100 <= 3 # 100)%Q
  /\ forall (Weights : Type)
            (Moran_Local : list N -> Weights -> option (list Z * list Q))
            (alpha alpha' : Q) (gdf : list string) (w : Weights)
            (df : Frame.DataFrame) (selected_years : list Z),
       Lisa.lisa_results Weights Moran_Local alpha gdf w df selected_years
       = Lisa.lisa_results Weights Moran_Local alpha' gdf w df selected_years.
Proof.
  split; [vm_compute; reflexivity|].
  split; [vm_compute; discriminate | reflexivity].
Qed.

Lemma sumN_zero_all (l : list N) :
  Frame.sumN l = 0%N -> Forall (fun c => c = 0%N) l.
Proof.
  induction l as [|c l IH]; [constructor|].
  rewrite sumN_cons. intros H. constructor; [lia|]. apply IH. lia.
Qed.

Lemma sumN_all_zero (l : list N) :
  Forall (fun c => c = 0%N) l -> Frame.sumN l = 0%N.
Proof.
  induction 1 as [|c l Hc _ IH]; [reflexivity|].
  rewrite sumN_cons. lia.
Qed.

(** C8.  When the case total of the year is zero, [compute_lisa_for_year]
    returns [None], whatever the geometry, the weights and the statistic
    are. *)
Theorem zero_year_is_skipped :
  forall (Weights : Type)
         (Moran_Local : list N -> Weights -> option (list Z * list Q))
         (gdf : list string) (w : Weights) (df : Frame.DataFrame) (year : Z),
    Frame.sumN (map Frame.cases (filter (fun r => Frame.data_year r =? year) df))
    = 0%N ->
    Lisa.compute_lisa_for_year Weights Moran_Local gdf w df year = None.
Proof.
  intros Weights Moran_Local gdf w df year Hzero.
  unfold Lisa.compute_lisa_for_year. cbv zeta.
  set (year_rows := filter (fun r => Frame.data_year r =? year) df) in *.
  apply sumN_zero_all in Hzero.
  assert (Hy : Frame.sumN
                 (map (fun d =>
                         Frame.sumN
                           (map Frame.cases (Frame.where_district d year_rows)))
                      gdf) = 0%N).
  { apply sumN_all_zero. rewrite Forall_map, Forall_forall. intros d _.
    apply sumN_all_zero. rewrite Forall_map in *. rewrite Forall_forall in *.
    intros r Hr. apply Hzero. unfold Frame.where_district in Hr.
    now apply filter_In in Hr. }
  now rewrite Hy.
Qed.

(** C8, witness: a table with no case in 2024. *)
Lemma zero_year_witness :
  Lisa.compute_lisa_for_year unit Scenario.moran_two_districts
    ["Garoua"; "Maroua"]%string tt Scenario.quiet_2024 2024 = None.
Proof.
  apply (zero_year_is_skipped unit Scenario.moran_two_districts
           ["Garoua"; "Maroua"]%string tt Scenario.quiet_2024 2024).
  reflexivity.
Defined.

Example year_with_cases_is_computed :
  exists rows,
    Lisa.compute_lisa_for_year unit Scenario.moran_two_districts
      ["Garoua"; "Maroua"]%string tt Scenario.quiet_2024 2023 = Some rows.
Proof. eexists. vm_compute. reflexivity. Qed.

(** ** Download file names *)

Section FileNames.
Local Open Scope string_scope.

Lemma prefix_app (n post : string) : String.prefix n (n ++ post) = true.
Proof.
  induction n as [|a n IH]; simpl.
  - now destruct post.
  - destruct (ascii_dec a a) as [_|N]; [exact IH | congruence].
Qed.

Lemma contains_unfold (needle haystack : string) :
  Downloads.contains needle haystack
  = String.prefix needle haystack
    || match haystack with
       | EmptyString => false
       | String _ rest => Downloads.contains needle rest
       end.
Proof. destruct haystack; reflexivity. Qed.

Lemma contains_app (pre needle post : string) :
  Downloads.contains needle (pre ++ needle ++ post) = true.
Proof.
  induction pre as [|a pre IH].
  - cbn [append]. rewrite contains_unfold, prefix_app. reflexivity.
  - cbn [append]. rewrite contains_unfold, IH. apply orb_true_r.
Qed.

Lemma string_app_assoc (a b c : string) : (a ++ b) ++ c = a ++ b ++ c.
Proof. induction a as [|x a IH]; simpl; [reflexivity | now rewrite IH]. Qed.

Lemma contains_app4 (a b c needle post : string) :
  Downloads.contains needle (a ++ b ++ c ++ needle ++ post) = true.
Proof.
  rewrite <- (string_app_assoc b c (needle ++ post)).
  rewrite <- (string_app_assoc a (b ++ c) (needle ++ post)).
  apply contains_app.
Qed.

(** C9 (as amended).  No export file name carries the whole filter state
    together with a timestamp.  The data explorer names contain the minute
    of the export (and the language code on the bilingual page) and do not
    change with the filters.  The names of [minimal_dashboard.py] contain
    the date and change neither with the filters nor with the time of day.
    The spatial names contain the selected year (and the language code on
    the bilingual page) and change neither with the selected regions nor
    with the time.  The predictions name of [pages/4_*_Predictions.py]
    contains the horizon and the date and changes neither with the selected
    regions nor with the time of day; the bilingual one contains the
    horizon and the language code and changes neither with the regions
    nor with the time.  The LISA name contains the selected year in
    single-year mode and the language code, and changes neither with the
    time nor with the significance level. *)
Theorem file_names_embed_time_or_year :
  forall (s : Downloads.ExplorerState) (p : Downloads.PlainExplorerState)
         (m : Downloads.MinimalState) (a : Downloads.SpatialState)
         (f : Downloads.PredictionsState) (z : Downloads.LisaState),
    (* data explorer, bilingual *)
    (Downloads.contains (Downloads.strftime_Ymd_HM (Downloads.es_now s))
                        (Downloads.explorer_filtered_file_name s) = true
     /\ Downloads.contains (Downloads.strftime_Ymd_HM (Downloads.es_now s))
                           (Downloads.explorer_statistics_file_name s) = true
     /\ Downloads.contains (Downloads.es_lang s)
                           (Downloads.explorer_filtered_file_name s) = true
     /\ Downloads.contains (Downloads.es_lang s)
                           (Downloads.explorer_statistics_file_name s) = true
     /\ (forall filters : Downloads.ExplorerFilters,
           Downloads.explorer_filtered_file_name
             (Downloads.mkExplorerState filters (Downloads.es_now s)
                                        (Downloads.es_lang s))
           = Downloads.explorer_filtered_file_name s
           /\ Downloads.explorer_statistics_file_name
                (Downloads.mkExplorerState filters (Downloads.es_now s)
                                           (Downloads.es_lang s))
              = Downloads.explorer_statistics_file_name s))
    (* data explorer, single language *)
    /\ (Downloads.contains (Downloads.strftime_Ymd_HM (Downloads.pe_now p))
                           (Downloads.plain_explorer_filtered_file_name p)
        = true
        /\ Downloads.contains
             (Downloads.strftime_Ymd_HM (Downloads.pe_now p))
             (Downloads.plain_explorer_statistics_file_name p) = true
        /\ (forall filters : Downloads.ExplorerFilters,
              Downloads.plain_explorer_filtered_file_name
                (Downloads.mkPlainExplorerState filters (Downloads.pe_now p))
              = Downloads.plain_explorer_filtered_file_name p
              /\ Downloads.plain_explorer_statistics_file_name
                   (Downloads.mkPlainExplorerState filters
                                                   (Downloads.pe_now p))
                 = Downloads.plain_explorer_statistics_file_name p))
    (* single-file dashboard *)
    /\ (Downloads.contains (Downloads.strftime_Ymd (Downloads.mn_now m))
                           (Downloads.minimal_data_file_name m) = true
        /\ Downloads.contains (Downloads.strftime_Ymd (Downloads.mn_now m))
                              (Downloads.minimal_summary_file_name m) = true
        /\ (forall (years : list Z) (regions : list string)
                   (weeks : Z * Z) (hour minute : Z),
              let m' :=
                Downloads.mkMinimalState years regions weeks
                  (Downloads.mkDatetime
                     (Downloads.dt_year (Downloads.mn_now m))
                     (Downloads.dt_month (Downloads.mn_now m))
                     (Downloads.dt_day (Downloads.mn_now m)) hour minute) in
              Downloads.minimal_data_file_name m'
              = Downloads.minimal_data_file_name m
              /\ Downloads.minimal_summary_file_name m'
                 = Downloads.minimal_summary_file_name m))
    (* spatial analysis *)
    /\ (Downloads.contains (Downloads.str (Downloads.sp_selected_year a))
                           (Downloads.spatial_file_name a) = true
        /\ Downloads.contains (Downloads.str (Downloads.sp_selected_year a))
                              (Downloads.spatial_bilingual_file_name a) = true
        /\ Downloads.contains (Downloads.sp_lang a)
                              (Downloads.spatial_bilingual_file_name a) = true
        /\ (forall (regions : list string) (now : Downloads.datetime),
              let a' :=
                Downloads.mkSpatialState (Downloads.sp_selected_year a)
                                         regions now (Downloads.sp_lang a) in
              Downloads.spatial_file_name a' = Downloads.spatial_file_name a
              /\ Downloads.spatial_bilingual_file_name a'
                 = Downloads.spatial_bilingual_file_name a))
    (* predictions *)
    /\ (Downloads.contains (Downloads.str (Downloads.pr_weeks_ahead f))
                           (Downloads.predictions_file_name f) = true
        /\ Downloads.contains (Downloads.strftime_Ymd (Downloads.pr_now f))
                              (Downloads.predictions_file_name f) = true
        /\ Downloads.contains (Downloads.str (Downloads.pr_weeks_ahead f))
                              (Downloads.predictions_bilingual_file_name f)
           = true
        /\ Downloads.contains (Downloads.pr_lang f)
                              (Downloads.predictions_bilingual_file_name f)
           = true
        /\ (forall (regions : list string) (hour minute : Z),
              Downloads.predictions_file_name
                (Downloads.mkPredictionsState
                   (Downloads.pr_weeks_ahead f) regions
                   (Downloads.mkDatetime
                      (Downloads.dt_year (Downloads.pr_now f))
                      (Downloads.dt_month (Downloads.pr_now f))
                      (Downloads.dt_day (Downloads.pr_now f)) hour minute)
                   (Downloads.pr_lang f))
              = Downloads.predictions_file_name f)
        /\ (forall (regions : list string) (now : Downloads.datetime),
              Downloads.predictions_bilingual_file_name
                (Downloads.mkPredictionsState
                   (Downloads.pr_weeks_ahead f) regions now
                   (Downloads.pr_lang f))
              = Downloads.predictions_bilingual_file_name f))
    (* LISA *)
    /\ ((Downloads.lz_analysis_mode z = Downloads.SingleYear ->
         Downloads.contains
           (Downloads.str (hd 0%Z (Downloads.lz_selected_years z)))
           (Downloads.lisa_file_name z) = true)
        /\ Downloads.contains (Downloads.lz_lang z)
                              (Downloads.lisa_file_name z) = true
        /\ (forall (now : Downloads.datetime) (alpha : Q),
              Downloads.lisa_file_name
                (Downloads.mkLisaState (Downloads.lz_analysis_mode z)
                   (Downloads.lz_selected_years z) alpha now
                   (Downloads.lz_lang z))
              = Downloads.lisa_file_name z)).
Proof.
  intros s p m a f z.
  split; [|split; [|split; [|split; [|split]]]].
  - split; [apply contains_app|]. split; [apply contains_app|].
    split; [apply contains_app4|]. split; [apply contains_app4|].
    intros filters. split; reflexivity.
  - split; [apply contains_app|]. split; [apply contains_app|].
    intros filters. split; reflexivity.
  - split; [apply contains_app|]. split; [apply contains_app|].
    intros years regions weeks hour minute. split; reflexivity.
  - split; [apply contains_app|]. split; [apply contains_app|].
    split; [apply contains_app4|].
    intros regions now. split; reflexivity.
  - split; [apply contains_app|]. split; [apply contains_app4|].
    split; [apply contains_app|]. split; [apply contains_app4|].
    split; [intros regions hour minute; reflexivity|].
    intros regions now. reflexivity.
  - split; [|split; [|intros now alpha; reflexivity]].
    + intros Hsingle. unfold Downloads.lisa_file_name. rewrite Hsingle.
      apply contains_app.
    + unfold Downloads.lisa_file_name.
      destruct (Downloads.lz_analysis_mode z);
        [apply contains_app4 | apply contains_app | apply contains_app].
Qed.

End FileNames.

Example file_name_examples :
  Downloads.explorer_filtered_file_name
    (Downloads.mkExplorerState Scenario.all_filters Scenario.export_time_a "fr")
  = "meningitis_filtered_20250307_0905_fr.csv"%string
  /\ Downloads.lisa_file_name
       (Downloads.mkLisaState Downloads.SingleYear [2024] (5 # 100)
          Scenario.export_time_a "en")
     = "lisa_clusters_2024_en.csv"%string
  /\ Downloads.predictions_file_name
       (Downloads.mkPredictionsState 4 ["Nord"%string]
          Scenario.export_time_a "en")
     = "predictions_4weeks_20250307.csv"%string
  /\ Downloads.spatial_bilingual_file_name
       (Downloads.mkSpatialState 2024 ["Nord"%string]
          Scenario.export_time_a "fr")
     = "district_rankings_2024_fr.csv"%string
  /\ Downloads.minimal_data_file_name
       (Downloads.mkMinimalState [2024] ["Nord"%string] (1, 53)
          Scenario.export_time_a)
     = "meningitis_data_20250307.csv"%string.
Proof. repeat split; vm_compute; reflexivity. Qed.

(** C9, counterexample.  Two data explorer exports with different filters
    at the same minute get the same file name; the LISA file name of an
    export does not contain its timestamp and is the same at another time;
    two predictions exports for different regions, in the morning and in
    the afternoon of one day, get the same file name. *)
Lemma file_names_miss_filters_or_time :
  (exists s1 s2 : Downloads.ExplorerState,
      Downloads.es_filters s1 = Scenario.all_filters
      /\ Downloads.es_filters s2 = Scenario.narrow_filters
      /\ Downloads.explorer_filtered_file_name s1
         = Downloads.explorer_filtered_file_name s2)
  /\ (exists z1 z2 : Downloads.LisaState,
        Downloads.lz_now z1 = Scenario.export_time_a
        /\ Downloads.lz_now z2 = Scenario.export_time_b
        /\ Downloads.lisa_file_name z1 = Downloads.lisa_file_name z2
        /\ Downloads.contains
             (Downloads.strftime_Ymd_HM (Downloads.lz_now z1))
             (Downloads.lisa_file_name z1) = false)
  /\ (exists f1 f2 : Downloads.PredictionsState,
        Downloads.pr_selected_regions f1 = ["Nord"%string]
        /\ Downloads.pr_selected_regions f2 = ["Est"%string]
        /\ Downloads.pr_now f1 = Scenario.export_time_a
        /\ Downloads.pr_now f2 = Scenario.export_time_c
        /\ Downloads.predictions_file_name f1
           = Downloads.predictions_file_name f2).
Proof.
  split; [|split].
  - exists (Downloads.mkExplorerState Scenario.all_filters
              Scenario.export_time_a "en"),
           (Downloads.mkExplorerState Scenario.narrow_filters
              Scenario.export_time_a "en").
    repeat split.
  - exists (Downloads.mkLisaState Downloads.SingleYear [2024] (5 # 100)
              Scenario.export_time_a "en"),
           (Downloads.mkLisaState Downloads.SingleYear [2024] (5 # 100)
              Scenario.export_time_b "en").
    repeat split.
  - exists (Downloads.mkPredictionsState 4 ["Nord"%string]
              Scenario.export_time_a "en"),
           (Downloads.mkPredictionsState 4 ["Est"%string]
              Scenario.export_time_c "en").
    repeat split.
Qed.

(** * Further properties of the pages *)

(** ** Grouping and sorting in general *)

Section GroupSums.
Context {A K : Type}.
Variable key : A -> K.
Variable sel : K -> A -> bool.
Variable f : A -> N.
Hypothesis sel_spec : forall k a, sel k a = true <-> key a = k.

Lemma share_absent (a : A) (c : N) (keys : list K) :
  ~ In (key a) keys ->
  Frame.sumN (map (fun k => if sel k a then c else 0%N) keys) = 0%N.
Proof.
  induction keys as [|k keys IH]; intros Hn; [reflexivity|].
  cbn [map]. rewrite sumN_cons, IH by (intros H; apply Hn; now right).
  destruct (sel k a) eqn:E; [|reflexivity].
  apply sel_spec in E. exfalso. apply Hn. now left.
Qed.

Lemma share_present (a : A) (c : N) (keys : list K) :
  NoDup keys -> In (key a) keys ->
  Frame.sumN (map (fun k => if sel k a then c else 0%N) keys) = c.
Proof.
  induction 1 as [|k keys Hk Hnd IH]; intros Hin; [contradiction|].
  cbn [map]. rewrite sumN_cons.
  destruct (sel k a) eqn:E.
  - apply sel_spec in E. subst k. rewrite share_absent by exact Hk. lia.
  - destruct Hin as [Hin|Hin].
    + symmetry in Hin. apply sel_spec in Hin. congruence.
    + rewrite IH by exact Hin. lia.
Qed.

(** Splitting a table into the groups of distinct keys that cover it
    neither loses nor repeats a row. *)
Lemma group_sums_split (rows : list A) (keys : list K) :
  NoDup keys ->
  (forall a, In a rows -> In (key a) keys) ->
  Frame.sumN (map (fun k => Frame.sumN (map f (filter (sel k) rows))) keys)
  = Frame.sumN (map f rows).
Proof.
  intros Hnd. induction rows as [|a rows IH]; intros Hin.
  - simpl. clear Hnd Hin. induction keys as [|k keys IHk]; [reflexivity|].
    cbn [map]. now rewrite sumN_cons, IHk.
  - cbn [map]. rewrite sumN_cons.
    rewrite <- IH by (intros; apply Hin; now right).
    rewrite <- (share_present a (f a) keys Hnd) at 1
      by (apply Hin; now left).
    rewrite <- sumN_pointwise. f_equal. apply map_ext. intros k.
    cbn [filter]. destruct (sel k a); reflexivity.
Qed.

End GroupSums.

Section SortOrder.
Context {A : Type}.
Variable before : A -> A -> bool.
Variable le : A -> A -> Prop.
Hypothesis before_le : forall a b, before a b = true -> le a b.
Hypothesis not_before_le : forall a b, before a b = false -> le b a.
Hypothesis le_trans : forall a b c, le a b -> le b c -> le a c.

Lemma insert_by_ordered (x : A) (l : list A) :
  StronglySorted le l -> StronglySorted le (Frame.insert_by before x l).
Proof.
  induction 1 as [|y l Hs IH Hy]; simpl.
  - repeat constructor.
  - destruct (before y x) eqn:E.
    + constructor; [exact IH|].
      eapply Permutation_Forall.
      * apply Permutation_sym, insert_by_perm.
      * constructor; [now apply before_le | exact Hy].
    + apply not_before_le in E.
      constructor; [now constructor|].
      constructor; [exact E|].
      eapply Forall_impl; [|exact Hy]. intros z Hz. now apply le_trans with y.
Qed.

Lemma sort_by_ordered (l : list A) :
  StronglySorted le (Frame.sort_by before l).
Proof.
  induction l as [|x l IH]; simpl; [constructor|].
  now apply insert_by_ordered.
Qed.

End SortOrder.

(** Sorting by a count, largest first. *)
Lemma sort_descending {A : Type} (key : A -> N) (l : list A) :
  StronglySorted (fun a b => (key b <= key a)%N)
                 (Frame.sort_by (fun y x => (key x <? key y)%N) l).
Proof.
  apply sort_by_ordered.
  - intros a b H. apply N.ltb_lt in H. lia.
  - intros a b H. apply N.ltb_ge in H. exact H.
  - intros a b c H1 H2. lia.
Qed.

Lemma sorted_app_cross {A : Type} (R : A -> A -> Prop) (l1 l2 : list A) :
  StronglySorted R (l1 ++ l2) ->
  forall a b, In a l1 -> In b l2 -> R a b.
Proof.
  induction l1 as [|x l1 IH]; intros Hs a b Ha Hb; [contradiction|].
  cbn [app] in Hs. apply StronglySorted_inv in Hs. destruct Hs as [Hs Hx].
  destruct Ha as [<-|Ha].
  - rewrite Forall_forall in Hx. apply Hx, in_or_app. now right.
  - now apply IH.
Qed.

Lemma sorted_firstn {A : Type} (R : A -> A -> Prop) (n : nat) (l : list A) :
  StronglySorted R l -> StronglySorted R (firstn n l).
Proof.
  intros Hs. revert n. induction Hs as [|a l Hs IH Ha]; intros [|n]; simpl;
    try constructor.
  - apply IH.
  - now apply firstn_Forall.
Qed.

Lemma sorted_map {A B : Type} (R : A -> A -> Prop) (S : B -> B -> Prop)
    (g : A -> B) (l : list A) :
  (forall a b, R a b -> S (g a) (g b)) ->
  StronglySorted R l -> StronglySorted S (map g l).
Proof.
  intros HRS. induction 1 as [|a l Hs IH Ha]; simpl; constructor; trivial.
  rewrite Forall_map. eapply Forall_impl; [|exact Ha]. intros b. apply HRS.
Qed.

Lemma NoDup_sort_by {A : Type} (before : A -> A -> bool) (l : list A) :
  NoDup l -> NoDup (Frame.sort_by before l).
Proof.
  apply Permutation_NoDup, Permutation_sym, sort_by_perm.
Qed.

Lemma In_sort_by {A : Type} (before : A -> A -> bool) (l : list A) (x : A) :
  In x (Frame.sort_by before l) <-> In x l.
Proof.
  split; apply Permutation_in;
    [apply sort_by_perm | apply Permutation_sym, sort_by_perm].
Qed.

Lemma NoDup_list_prod {A B : Type} (l1 : list A) (l2 : list B) :
  NoDup l1 -> NoDup l2 -> NoDup (list_prod l1 l2).
Proof.
  intros H1 H2. induction H1 as [|x l1 Hx _ IH]; simpl; [constructor|].
  apply NoDup_app; trivial.
  - apply Finite.Injective_map_NoDup; trivial. intros a b E. congruence.
  - intros [a b] Ha Hb. apply in_map_iff in Ha. destruct Ha as (y & E & _).
    apply in_prod_iff in Hb. destruct Hb as [Hb _]. congruence.
Qed.

Lemma categories_NoDup (col : list string) : NoDup (Grouping.categories col).
Proof. apply NoDup_sort_by, NoDup_nodup. Qed.

Lemma categories_In (col : list string) (x : string) :
  In x (Grouping.categories col) <-> In x col.
Proof. unfold Grouping.categories. now rewrite In_sort_by, nodup_In. Qed.

Lemma has_key_spec (k : string * string) (r : Frame.Row) :
  Grouping.has_key k r = true <-> Grouping.row_key r = k.
Proof.
  destruct k as [rg d]. unfold Grouping.has_key, Grouping.row_key.
  cbn [fst snd]. rewrite andb_true_iff, !String.eqb_eq.
  split; [intros [-> ->]; reflexivity | intros [= -> ->]; now split].
Qed.

(** The group keys are distinct and cover every row of the filtered table,
    for either setting of [observed]. *)
Lemma group_keys_NoDup (observed : bool) (df dff : Frame.DataFrame) :
  NoDup (Grouping.group_keys observed df dff).
Proof.
  destruct observed; simpl.
  - apply NoDup_sort_by, NoDup_nodup.
  - apply NoDup_list_prod; apply categories_NoDup.
Qed.

Lemma group_keys_cover (observed : bool) (df dff : Frame.DataFrame) :
  incl dff df ->
  forall r, In r dff ->
            In (Grouping.row_key r) (Grouping.group_keys observed df dff).
Proof.
  intros Hsub r Hr. destruct observed; simpl.
  - apply In_sort_by, nodup_In, in_map, Hr.
  - apply in_prod; apply categories_In, in_map, Hsub, Hr.
Qed.

Lemma filter_incl {A : Type} (p : A -> bool) (l : list A) :
  incl (filter p l) l.
Proof. intros x Hx. now apply filter_In in Hx. Qed.

(** ** District tables of the spatial and overview pages *)

Lemma spatial_rows (observed : bool) (df : Frame.DataFrame) (year : Z)
    (regions : list string) (row : Spatial.DistrictRow) :
  In row (Spatial.prepare_spatial_data observed df year regions) ->
  exists g : Frame.DataFrame,
    incl g df
    /\ Spatial.ds_cases row = Frame.sumN (map Frame.cases g)
    /\ Spatial.ds_deaths row = Frame.sumN (map Frame.deaths g)
    /\ Spatial.ds_cfr row
       = Overview.fillna 0
           (Overview.series_scale
              (Spatial.div_by_nonzero (Spatial.ds_deaths row)
                                      (Spatial.ds_cases row)) 100).
Proof.
  unfold Spatial.prepare_spatial_data. cbv zeta.
  rewrite In_sort_by, in_map_iff. intros (k & <- & _).
  eexists. split; [|repeat split].
  eapply incl_tran; apply filter_incl.
Qed.

Lemma incl_Forall_rows (P : Frame.Row -> Prop) (g df : Frame.DataFrame) :
  incl g df -> Forall P df -> Forall P g.
Proof.
  intros Hsub Hall. rewrite Forall_forall in *. intros r Hr.
  apply Hall, Hsub, Hr.
Qed.

(** The CFR column of [prepare_spatial_data] is always a number: 0 for a
    district without cases (even when deaths are recorded), the deaths per
    100 cases otherwise, and within 0..100 when no record has more deaths
    than cases. *)
Theorem spatial_cfr_is_finite :
  forall (observed : bool) (df : Frame.DataFrame) (selected_year : Z)
         (selected_regions : list string) (row : Spatial.DistrictRow),
    In row (Spatial.prepare_spatial_data observed df selected_year
                                         selected_regions) ->
    exists q : Q,
      Spatial.ds_cfr row = Overview.Finite q
      /\ (Spatial.ds_cases row = 0%N -> q = 0%Q)
      /\ ((0 < Spatial.ds_cases row)%N ->
          q = (Risk.count (Spatial.ds_deaths row)
               / Risk.count (Spatial.ds_cases row) * 100)%Q)
      /\ (Forall (fun r => (Frame.deaths r <= Frame.cases r)%N) df ->
          (0 <= q)%Q /\ (q <= 100)%Q).
Proof.
  intros observed df year regions row Hrow.
  destruct (spatial_rows _ _ _ _ _ Hrow) as (g & Hsub & Hc & Hd & Hcfr).
  rewrite Hcfr. unfold Spatial.div_by_nonzero.
  destruct (N.eqb_spec (Spatial.ds_cases row) 0) as [Hz|Hnz]; simpl.
  - exists 0%Q. repeat split; try lia; intros; lra.
  - eexists. split; [reflexivity|]. split; [lia|]. split; [reflexivity|].
    intros Hall. apply percentage_bounds; [lia|].
    rewrite Hc, Hd. apply sumN_deaths_le_cases.
    now apply (incl_Forall_rows _ g df).
Qed.

(** Witness: the district with most cases in 2024 in the sample table. *)
Lemma spatial_cfr_witness :
  exists q : Q,
    Spatial.ds_cfr Samples.first_spatial_row = Overview.Finite q
    /\ (Spatial.ds_cases Samples.first_spatial_row = 0%N -> q = 0%Q)
    /\ ((0 < Spatial.ds_cases Samples.first_spatial_row)%N ->
        q = (Risk.count (Spatial.ds_deaths Samples.first_spatial_row)
             / Risk.count (Spatial.ds_cases Samples.first_spatial_row)
             * 100)%Q)
    /\ (Forall (fun r => (Frame.deaths r <= Frame.cases r)%N)
               Samples.surveillance ->
        (0 <= q)%Q /\ (q <= 100)%Q).
Proof.
  apply (spatial_cfr_is_finite true Samples.surveillance 2024
           Samples.all_regions Samples.first_spatial_row).
  vm_compute. left. reflexivity.
Defined.

Example spatial_table_example :
  map (fun r => (Spatial.ds_district_clean r, Spatial.ds_cases r,
                 Spatial.ds_cfr r))
      (Spatial.prepare_spatial_data true Samples.surveillance 2024
                                    Samples.all_regions)
  = [("Bertoua"%string, 55%N, Overview.Finite (800 # 55));
     ("Garoua"%string, 21%N, Overview.Finite (200 # 21));
     ("Batouri"%string, 7%N, Overview.Finite (0 # 7));
     ("Ebolowa"%string, 4%N, Overview.Finite (0 # 4));
     ("Guider"%string, 0%N, Overview.Finite 0)].
Proof. vm_compute. reflexivity. Qed.

(** The district table of [prepare_spatial_data] accounts for every case
    and death of the selected year and regions exactly once, and its rows
    come in non-increasing order of cases. *)
Theorem spatial_totals_and_order :
  forall (observed : bool) (df : Frame.DataFrame) (selected_year : Z)
         (selected_regions : list string),
    let df_filtered :=
      filter (fun r => (Frame.data_year r =? selected_year)
                       && existsb (String.eqb (Frame.region r))
                                  selected_regions) df in
    let table :=
      Spatial.prepare_spatial_data observed df selected_year
                                   selected_regions in
    Frame.sumN (map Spatial.ds_cases table)
    = Frame.sumN (map Frame.cases df_filtered)
    /\ Frame.sumN (map Spatial.ds_deaths table)
       = Frame.sumN (map Frame.deaths df_filtered)
    /\ StronglySorted
         (fun a b => (Spatial.ds_cases b <= Spatial.ds_cases a)%N) table.
Proof.
  intros observed df year regions. cbv zeta.
  unfold Spatial.prepare_spatial_data. cbv zeta.
  set (dff := filter _ df).
  assert (Hsub : incl dff df) by apply filter_incl.
  repeat split.
  - rewrite (sumN_perm _ _ (Permutation_map _ (sort_by_perm _ _))).
    rewrite map_map. cbn [Spatial.ds_cases].
    apply (group_sums_split Grouping.row_key Grouping.has_key Frame.cases
                            has_key_spec).
    + apply group_keys_NoDup.
    + now apply group_keys_cover.
  - rewrite (sumN_perm _ _ (Permutation_map _ (sort_by_perm _ _))).
    rewrite map_map. cbn [Spatial.ds_deaths].
    apply (group_sums_split Grouping.row_key Grouping.has_key Frame.deaths
                            has_key_spec).
    + apply group_keys_NoDup.
    + now apply group_keys_cover.
  - apply sort_descending.
Qed.

Section RankingFacts.
Local Open Scope Q_scope.

Lemma classify_risk_monotone (all_cases : list N) (c1 c2 : N) :
  (c2 <= c1)%N ->
  (Risk.priority (Ranking.classify_risk all_cases c2)
   <= Risk.priority (Ranking.classify_risk all_cases c1))%nat.
Proof.
  intros Hle. apply count_le in Hle. unfold Ranking.classify_risk.
  pose proof (exceeds_mono _ _ (Risk.quantile (90 # 100) all_cases) Hle) as M90.
  pose proof (exceeds_mono _ _ (Risk.quantile (75 # 100) all_cases) Hle) as M75.
  pose proof (exceeds_mono _ _ (Risk.quantile (50 # 100) all_cases) Hle) as M50.
  destruct (Risk.exceeds (Risk.count c2) (Risk.quantile (90 # 100) all_cases));
    [rewrite M90 by reflexivity; simpl; lia|].
  destruct (Risk.exceeds (Risk.count c2) (Risk.quantile (75 # 100) all_cases));
    [rewrite M75 by reflexivity;
     destruct (Risk.exceeds (Risk.count c1) _); simpl; lia|].
  destruct (Risk.exceeds (Risk.count c2) (Risk.quantile (50 # 100) all_cases));
    [rewrite M50 by reflexivity|];
    destruct (Risk.exceeds (Risk.count c1)
                           (Risk.quantile (90 # 100) all_cases));
    destruct (Risk.exceeds (Risk.count c1)
                           (Risk.quantile (75 # 100) all_cases));
    try destruct (Risk.exceeds (Risk.count c1)
                               (Risk.quantile (50 # 100) all_cases));
    simpl; lia.
Qed.

End RankingFacts.

(** [get_high_risk_districts] returns the [top_n] districts with most
    cases (all of them when there are fewer): the rows come in
    non-increasing order of cases and of risk level, and every district
    left out has at most as many cases as every district returned. *)
Theorem high_risk_districts_are_the_top :
  forall (observed : bool) (df : Frame.DataFrame) (selected_years : list Z)
         (selected_regions : list string) (top_n : nat),
    let data :=
      Ranking.district_data observed df selected_years selected_regions in
    let top :=
      Ranking.get_high_risk_districts observed df selected_years
                                      selected_regions top_n in
    length top = Nat.min top_n (length data)
    /\ StronglySorted
         (fun a b =>
            (Ranking.rk_cases (fst b) <= Ranking.rk_cases (fst a))%N
            /\ (Risk.priority (snd b) <= Risk.priority (snd a))%nat) top
    /\ (forall r, In r data ->
          In r (map fst top)
          \/ forall t, In t (map fst top) ->
                       (Ranking.rk_cases r <= Ranking.rk_cases t)%N).
Proof.
  intros observed df ys rs top_n. cbv zeta.
  unfold Ranking.get_high_risk_districts. cbv zeta.
  set (data := Ranking.district_data observed df ys rs).
  set (sorted := Frame.sort_by _ data).
  assert (Hs : StronglySorted
                 (fun a b => (Ranking.rk_cases b <= Ranking.rk_cases a)%N)
                 sorted) by apply sort_descending.
  repeat split.
  - rewrite length_map, length_firstn. unfold sorted.
    now rewrite sort_by_length.
  - apply sorted_map
      with (R := fun a b => (Ranking.rk_cases b <= Ranking.rk_cases a)%N).
    + intros a b Hab. cbn [fst snd]. split; [exact Hab|].
      now apply classify_risk_monotone.
    + now apply sorted_firstn.
  - intros r Hr. rewrite map_map. cbn [fst]. rewrite map_id.
    assert (Hin : In r sorted) by now apply In_sort_by.
    rewrite <- (firstn_skipn top_n sorted) in Hin, Hs.
    apply in_app_or in Hin. destruct Hin as [Hin|Hin]; [now left|].
    right. intros t Ht.
    exact (sorted_app_cross _ _ _ Hs t r Ht Hin).
Qed.

Example high_risk_districts_example :
  map (fun p => (Ranking.rk_district_clean (fst p), Ranking.rk_cases (fst p),
                 snd p))
      (Ranking.get_high_risk_districts true Samples.surveillance [2023; 2024]
                                       Samples.all_regions 3)
  = [("Bertoua"%string, 55%N, Risk.Critical);
     ("Garoua"%string, 25%N, Risk.Moderate);
     ("Batouri"%string, 7%N, Risk.Low)].
Proof. vm_compute. reflexivity. Qed.

(** ** Yearly and weekly tables *)

Lemma sorted_distinct_years (l : list Z) :
  StronglySorted Z.le l -> NoDup l -> StronglySorted Z.lt l.
Proof.
  induction 1 as [|a l Hs IH Ha]; intros Hnd; constructor.
  - apply IH. now inversion Hnd.
  - inversion Hnd as [|? ? Hna _]; subst.
    rewrite Forall_forall in *. intros b Hb.
    specialize (Ha b Hb). assert (a <> b) by congruence. lia.
Qed.

(** The yearly table of [get_temporal_data] has one row per year that
    occurs in the selection, in increasing order of year, each a selected
    year, and its case and death totals add up to the totals of
    [compute_kpis]. *)
Theorem yearly_table_accounts_for_selection :
  forall (df : Frame.DataFrame) (selected_years : list Z)
         (selected_regions : list string),
    let yearly :=
      Overview.get_temporal_data df selected_years selected_regions in
    let kpis := Overview.compute_kpis df selected_years selected_regions in
    StronglySorted Z.lt (map Overview.yr_data_year yearly)
    /\ (forall y, In y (map Overview.yr_data_year yearly) ->
                  In y selected_years)
    /\ Frame.sumN (map Overview.yr_cases yearly) = Overview.total_cases kpis
    /\ Frame.sumN (map Overview.yr_deaths yearly)
       = Overview.total_deaths kpis.
Proof.
  intros df ys rs. cbv zeta.
  unfold Overview.get_temporal_data, Overview.compute_kpis. cbv zeta.
  set (dff := Overview.filter_selection df ys rs).
  cbn [Overview.total_cases Overview.total_deaths].
  rewrite !map_map. cbn [Overview.yr_data_year Overview.yr_cases
                         Overview.yr_deaths].
  rewrite map_id.
  assert (Hsel : forall k (a : Frame.Row),
             (Frame.data_year a =? k) = true <-> Frame.data_year a = k)
    by (intros; apply Z.eqb_eq).
  repeat split.
  - apply sorted_distinct_years.
    + apply sort_by_ordered with (le := Z.le).
      * intros a b H. apply Z.ltb_lt in H. lia.
      * intros a b H. apply Z.ltb_ge in H. exact H.
      * intros a b c H1 H2. lia.
    + apply NoDup_sort_by, NoDup_nodup.
  - intros y Hy. apply In_sort_by, nodup_In, in_map_iff in Hy.
    destruct Hy as (r & <- & Hr). unfold dff, Overview.filter_selection in Hr.
    apply filter_In in Hr. destruct Hr as [_ Hr].
    apply andb_true_iff in Hr. destruct Hr as [Hr _].
    apply existsb_exists in Hr. destruct Hr as (y & Hy & E).
    apply Z.eqb_eq in E. now rewrite E.
  - apply (group_sums_split Frame.data_year
             (fun k r => Frame.data_year r =? k) Frame.cases Hsel).
    + apply NoDup_sort_by, NoDup_nodup.
    + intros r Hr. apply In_sort_by, nodup_In, in_map, Hr.
  - apply (group_sums_split Frame.data_year
             (fun k r => Frame.data_year r =? k) Frame.deaths Hsel).
    + apply NoDup_sort_by, NoDup_nodup.
    + intros r Hr. apply In_sort_by, nodup_In, in_map, Hr.
Qed.

Lemma week_selector (k : Z * Z) (r : Frame.Row) :
  (Frame.data_year r =? fst k) && (Frame.week_number r =? snd k) = true
  <-> (Frame.data_year r, Frame.week_number r) = k.
Proof.
  destruct k as [y w]. cbn [fst snd]. rewrite andb_true_iff, !Z.eqb_eq.
  split; [intros [-> ->]; reflexivity | intros [= -> ->]; now split].
Qed.

Lemma weekly_sums_total (dff : Frame.DataFrame) :
  Frame.sumN (map Temporal.wk_cases (Temporal.weekly_sums dff))
  = Frame.sumN (map Frame.cases dff).
Proof.
  unfold Temporal.weekly_sums. rewrite map_map. cbn [Temporal.wk_cases].
  apply (group_sums_split
           (fun r => (Frame.data_year r, Frame.week_number r))
           (fun k r => (Frame.data_year r =? fst k)
                       && (Frame.week_number r =? snd k))
           Frame.cases week_selector).
  - apply NoDup_sort_by, NoDup_nodup.
  - intros r Hr. apply In_sort_by, nodup_In.
    now apply (in_map (fun r => (Frame.data_year r, Frame.week_number r))).
Qed.

(** The weekly table of [get_yearly_trends] has one row per (year, week)
    of the selection, and its cases add up to the case total of the
    selection: rows that repeat a week are summed, none is lost. *)
Theorem weekly_table_accounts_for_selection :
  forall (df : Frame.DataFrame) (selected_years : list Z)
         (selected_regions : list string),
    let weekly :=
      Temporal.get_yearly_trends df selected_years selected_regions in
    NoDup (map (fun w => (Temporal.wk_data_year w, Temporal.wk_week_number w))
               weekly)
    /\ Frame.sumN (map Temporal.wk_cases weekly)
       = Overview.total_cases
           (Overview.compute_kpis df selected_years selected_regions).
Proof.
  intros df ys rs. cbv zeta. split.
  - unfold Temporal.get_yearly_trends, Temporal.weekly_sums.
    rewrite map_map. cbn [Temporal.wk_data_year Temporal.wk_week_number].
    rewrite (map_ext _ (fun k => k)) by (intros [y w]; reflexivity).
    rewrite map_id. apply NoDup_sort_by, NoDup_nodup.
  - apply weekly_sums_total.
Qed.

Example weekly_table_example :
  map (fun w => (Temporal.wk_data_year w, Temporal.wk_week_number w,
                 Temporal.wk_cases w))
      (Temporal.get_yearly_trends Samples.surveillance [2023; 2024]
                                  ["Nord"; "Sud"]%string)
  = [(2023, 50, 4%N); (2024, 1, 12%N); (2024, 2, 13%N)].
Proof. vm_compute. reflexivity. Qed.

(** ** Epidemic weeks *)

Section EpidemicWeeks.
Local Open Scope Q_scope.

Lemma count_lt_inv (a b : N) : Risk.count a < Risk.count b -> (a < b)%N.
Proof. unfold Risk.count. rewrite <- Zlt_Qlt. lia. Qed.

(** The interpolated quantile is at least the sorted value at the floor of
    its position. *)
Lemma quantile_anchor (q : Q) (l : list N) (t : Q) :
  0 <= q -> q <= 1 -> Risk.quantile q l = Some t ->
  exists lo : nat,
    (lo < length l)%nat
    /\ Z.of_nat lo = Qfloor (q * inject_Z (Z.of_nat (length l - 1)))
    /\ Risk.count (nth lo (Frame.sort_by N.ltb l) 0%N) <= t.
Proof.
  intros H0 H1 Hq. unfold Risk.quantile in Hq.
  destruct l as [|x l']; [discriminate|].
  set (l := x :: l') in *.
  set (s := Frame.sort_by N.ltb l) in *.
  assert (Hs : StronglySorted N.le s) by apply sort_by_sorted.
  assert (Hlen : length s = length l) by apply sort_by_length.
  assert (Hn : (1 <= length l)%nat) by (simpl; lia).
  rewrite Hlen in Hq.
  set (m := inject_Z (Z.of_nat (length l - 1))) in *.
  assert (Hm : 0 <= m)
    by (unfold m; change 0 with (inject_Z 0); rewrite <- Zle_Qle; lia).
  assert (P1 : 0 <= q * m) by nra.
  assert (P2 : q * m <= m) by nra.
  pose proof (Qfloor_le (q * m)) as F1.
  assert (Z1 : (0 <= Qfloor (q * m))%Z).
  { rewrite <- (Qfloor_Z 0). now apply Qfloor_resp_le. }
  assert (Z2 : (Qfloor (q * m) <= Z.of_nat (length l - 1))%Z).
  { rewrite <- (Qfloor_Z (Z.of_nat (length l - 1))). now apply Qfloor_resp_le. }
  set (z := Qfloor (q * m)) in *.
  exists (Z.to_nat z). split; [lia|]. split; [lia|].
  injection Hq as <-.
  set (lo := Z.to_nat z).
  set (hi := Nat.min (lo + 1) (length l - 1)).
  assert (A : Risk.count (nth lo s 0%N) <= Risk.count (nth hi s 0%N))
    by (apply count_le, sorted_nth_le; trivial; unfold hi, lo; lia).
  assert (B : 0 <= (Risk.count (nth hi s 0%N) - Risk.count (nth lo s 0%N))
                   * (q * m - inject_Z z))
    by (apply Qmult_le_0_compat; lra).
  change (length l' - 0)%nat with (length l - 1)%nat. fold hi.
  lra.
Qed.

End EpidemicWeeks.

(** Every epidemic week has strictly more cases than some other week of
    the selection; so when all weeks have the same total (all zero, say)
    no week is flagged. *)
Theorem epidemic_week_exceeds_another :
  forall (df : Frame.DataFrame) (selected_years : list Z)
         (selected_regions : list string) (threshold_percentile : Z)
         (w : Temporal.WeekRow),
    0 <= threshold_percentile <= 100 ->
    In w (fst (Temporal.identify_epidemic_weeks
                 df selected_years selected_regions threshold_percentile)) ->
    exists w' : Temporal.WeekRow,
      In w' (Temporal.get_yearly_trends df selected_years selected_regions)
      /\ (Temporal.wk_cases w' < Temporal.wk_cases w)%N.
Proof.
  intros df ys rs p w Hp.
  unfold Temporal.identify_epidemic_weeks, Temporal.get_yearly_trends.
  cbv zeta. cbn [fst].
  set (weekly := Temporal.weekly_sums (Overview.filter_selection df ys rs)).
  set (values := map Temporal.wk_cases weekly).
  set (q := (inject_Z p / 100)%Q).
  assert (Hq0 : (0 <= q)%Q).
  { unfold q. apply Qle_shift_div_l; [reflexivity|].
    rewrite Qmult_0_l. change 0%Q with (inject_Z 0). rewrite <- Zle_Qle. lia. }
  assert (Hq1 : (q <= 1)%Q).
  { unfold q. apply Qle_shift_div_r; [reflexivity|].
    rewrite Qmult_1_l. change 100%Q with (inject_Z 100).
    rewrite <- Zle_Qle. lia. }
  rewrite filter_In. intros [Hw Hex].
  destruct (Risk.quantile q values) as [t|] eqn:Et; [|discriminate].
  destruct (quantile_anchor q values t Hq0 Hq1 Et) as (lo & Hlo & _ & Hanchor).
  cbn [Risk.exceeds] in Hex. apply Qltb_lt in Hex.
  set (v := nth lo (Frame.sort_by N.ltb values) 0%N) in *.
  assert (Hv : In v values).
  { apply (In_sort_by N.ltb). apply nth_In. now rewrite sort_by_length. }
  apply in_map_iff in Hv. destruct Hv as (w' & Hw' & Hin').
  exists w'. split; [exact Hin'|].
  rewrite Hw'. apply count_lt_inv.
  now apply Qle_lt_trans with t.
Qed.

(** Witness: week 2 of 2024, with 45 cases, is the epidemic week of the
    sample table. *)
Lemma epidemic_week_exceeds_another_witness :
  exists w' : Temporal.WeekRow,
    In w' (Temporal.get_yearly_trends Samples.surveillance [2023; 2024]
                                      Samples.all_regions)
    /\ (Temporal.wk_cases w'
        < Temporal.wk_cases Samples.first_epidemic_week)%N.
Proof.
  apply (epidemic_week_exceeds_another Samples.surveillance [2023; 2024]
           Samples.all_regions 90 Samples.first_epidemic_week).
  - lia.
  - vm_compute. left. reflexivity.
Defined.

Example epidemic_weeks_example :
  fst (Temporal.identify_epidemic_weeks Samples.surveillance [2023; 2024]
                                        Samples.all_regions 90)
  = [Temporal.mkWeekRow 2024 2 45].
Proof. vm_compute. reflexivity. Qed.

(** ** Data explorer filters *)

Lemma filter_filter {A : Type} (p q : A -> bool) (l : list A) :
  filter p (filter q l) = filter (fun a => q a && p a) l.
Proof.
  induction l as [|a l IH]; simpl; [reflexivity|].
  destruct (q a); simpl; [destruct (p a)|]; now rewrite IH.
Qed.

Lemma filter_all {A : Type} (p : A -> bool) (l : list A) :
  (forall a, In a l -> p a = true) -> filter p l = l.
Proof.
  induction l as [|a l IH]; intros H; simpl; [reflexivity|].
  rewrite (H a) by now left. rewrite IH; [reflexivity|].
  intros b Hb. apply H. now right.
Qed.

Lemma filter_twice {A : Type} (p : A -> bool) (l : list A) :
  filter p (filter p l) = filter p l.
Proof. apply filter_all. intros a Ha. now apply filter_In in Ha. Qed.

Lemma filter_swap {A : Type} (p q : A -> bool) (l : list A) :
  filter p (filter q l) = filter q (filter p l).
Proof.
  rewrite !filter_filter. apply filter_ext. intros a. apply andb_comm.
Qed.

Lemma filter_true {A : Type} (l : list A) : filter (fun _ => true) l = l.
Proof. apply filter_all. reflexivity. Qed.

Lemma apply_filters_keeps (f : Downloads.ExplorerFilters)
    (df : Frame.DataFrame) :
  Explorer.apply_filters f df = filter (Explorer.keeps f) df.
Proof.
  unfold Explorer.apply_filters, Explorer.keeps. cbv zeta.
  destruct f as [years weeks regions show districts cfilter].
  cbn [Downloads.ef_selected_years Downloads.ef_week_range
       Downloads.ef_selected_regions Downloads.ef_show_district_filter
       Downloads.ef_selected_districts Downloads.ef_cases_filter].
  destruct years as [|y years], regions as [|rg regions], show,
    districts as [|d districts], cfilter as [| |lo hi];
    rewrite ?filter_filter; apply filter_ext; intros r;
    rewrite ?andb_true_r, ?andb_true_l, <- ?andb_assoc; reflexivity.
Qed.

(** Applying the explorer's filters to an already filtered table changes
    nothing, and filtering never adds records, cases or deaths. *)
Theorem explorer_filters_idempotent :
  forall (f : Downloads.ExplorerFilters) (df : Frame.DataFrame),
    Explorer.apply_filters f (Explorer.apply_filters f df)
    = Explorer.apply_filters f df
    /\ (length (Explorer.apply_filters f df) <= length df)%nat
    /\ (Frame.sumN (map Frame.cases (Explorer.apply_filters f df))
        <= Frame.sumN (map Frame.cases df))%N
    /\ (Frame.sumN (map Frame.deaths (Explorer.apply_filters f df))
        <= Frame.sumN (map Frame.deaths df))%N.
Proof.
  intros f df. rewrite !apply_filters_keeps.
  split; [apply filter_twice|]. split; [apply filter_length_le|].
  split; induction df as [|r df IH]; simpl; try reflexivity;
    destruct (Explorer.keeps f r); cbn [map]; rewrite ?sumN_cons; lia.
Qed.

(** An empty year selection in the explorer means every year: it gives the
    same table as selecting all years of the data.  (On the overview page
    an empty selection keeps no row.) *)
Theorem explorer_empty_years_mean_all :
  forall (f : Downloads.ExplorerFilters) (df : Frame.DataFrame)
         (selected_regions : list string),
    Explorer.apply_filters (Explorer.with_years f []) df
    = Explorer.apply_filters
        (Explorer.with_years f (map Frame.data_year df)) df
    /\ Overview.filter_selection df [] selected_regions = [].
Proof.
  intros f df rs. split.
  - rewrite !apply_filters_keeps. apply filter_ext_in. intros r Hr.
    unfold Explorer.keeps, Explorer.with_years.
    cbn [Downloads.ef_selected_years Downloads.ef_week_range
         Downloads.ef_selected_regions Downloads.ef_show_district_filter
         Downloads.ef_selected_districts Downloads.ef_cases_filter].
    assert (Hy : existsb (Z.eqb (Frame.data_year r)) (map Frame.data_year df)
                 = true).
    { apply existsb_exists. exists (Frame.data_year r).
      split; [now apply in_map | apply Z.eqb_refl]. }
    destruct (map Frame.data_year df) as [|y ys]; [reflexivity|].
    now rewrite Hy.
  - unfold Overview.filter_selection.
    induction df as [|r df IH]; simpl; [reflexivity | exact IH].
Qed.

(** Switching the cases filter from "all records" to "cases > 0" removes
    only rows without cases: the case total stays the same. *)
Theorem positive_filter_keeps_case_total :
  forall (f : Downloads.ExplorerFilters) (df : Frame.DataFrame),
    Frame.sumN
      (map Frame.cases
           (Explorer.apply_filters
              (Explorer.with_cases_filter f Downloads.PositiveCases) df))
    = Frame.sumN
        (map Frame.cases
             (Explorer.apply_filters
                (Explorer.with_cases_filter f Downloads.AllRecords) df)).
Proof.
  intros f df. rewrite !apply_filters_keeps.
  unfold Explorer.keeps, Explorer.with_cases_filter.
  cbn [Downloads.ef_selected_years Downloads.ef_week_range
       Downloads.ef_selected_regions Downloads.ef_show_district_filter
       Downloads.ef_selected_districts Downloads.ef_cases_filter].
  induction df as [|r df IH]; [reflexivity|].
  cbn [filter]. rewrite andb_true_r.
  match goal with |- context [if ?b && _ then _ else _] => destruct b end;
    cbn [andb]; [|exact IH].
  destruct (N.ltb_spec 0 (Frame.cases r)); cbn [map]; rewrite ?sumN_cons, IH;
    lia.
Qed.

Example explorer_filters_example :
  map Frame.cases
      (Explorer.apply_filters
         (Downloads.mkExplorerFilters [] (1, 2) ["Nord"; "Sud"]%string
            true [] Downloads.PositiveCases)
         Samples.surveillance)
  = [12; 9; 3; 1]%N.
Proof. vm_compute. reflexivity. Qed.

(** ** Landing page statistics *)

(** When every year and region of the table is selected, the overview
    page's [compute_kpis] reports the same case total, death total and
    overall CFR as the landing page's [compute_quick_stats], whose record
    count is the number of rows. *)
Theorem quick_stats_agree_with_kpis :
  forall (df : Frame.DataFrame) (selected_years : list Z)
         (selected_regions : list string) (stats : Landing.QuickStats),
    (forall r, In r df ->
               In (Frame.data_year r) selected_years
               /\ In (Frame.region r) selected_regions) ->
    Landing.compute_quick_stats df = Some stats ->
    Landing.qs_total_cases stats
    = Overview.total_cases
        (Overview.compute_kpis df selected_years selected_regions)
    /\ Landing.qs_total_deaths stats
       = Overview.total_deaths
           (Overview.compute_kpis df selected_years selected_regions)
    /\ Landing.qs_overall_cfr stats
       = Overview.overall_cfr
           (Overview.compute_kpis df selected_years selected_regions)
    /\ Landing.qs_total_records stats = length df.
Proof.
  intros df ys rs stats Hall Hstats.
  assert (Hf : Overview.filter_selection df ys rs = df).
  { apply filter_all. intros r Hr. destruct (Hall r Hr) as [Hy Hg].
    apply andb_true_iff. split; apply existsb_exists.
    - exists (Frame.data_year r). split; [exact Hy | apply Z.eqb_refl].
    - exists (Frame.region r). split; [exact Hg | apply String.eqb_refl]. }
  unfold Overview.compute_kpis. cbv zeta. rewrite Hf.
  cbn [Overview.total_cases Overview.total_deaths Overview.overall_cfr].
  unfold Landing.compute_quick_stats in Hstats.
  destruct df as [|r rest]; [discriminate|].
  injection Hstats as <-. repeat split.
Qed.

(** Witness: the sample table with all its years and regions selected. *)
Lemma quick_stats_agree_witness :
  Landing.qs_total_cases
    (Landing.mkQuickStats 91 12 (1200 # 91) 5 3 "2023-2024" 10)
  = Overview.total_cases
      (Overview.compute_kpis Samples.surveillance [2023; 2024]
                             Samples.all_regions)
  /\ Landing.qs_total_deaths
       (Landing.mkQuickStats 91 12 (1200 # 91) 5 3 "2023-2024" 10)
     = Overview.total_deaths
         (Overview.compute_kpis Samples.surveillance [2023; 2024]
                                Samples.all_regions)
  /\ Landing.qs_overall_cfr
       (Landing.mkQuickStats 91 12 (1200 # 91) 5 3 "2023-2024" 10)
     = Overview.overall_cfr
         (Overview.compute_kpis Samples.surveillance [2023; 2024]
                                Samples.all_regions)
  /\ Landing.qs_total_records
       (Landing.mkQuickStats 91 12 (1200 # 91) 5 3 "2023-2024" 10)
     = length Samples.surveillance.
Proof.
  apply (quick_stats_agree_with_kpis Samples.surveillance [2023; 2024]
           Samples.all_regions).
  - intros r Hr. vm_compute in Hr.
    repeat (destruct Hr as [<-|Hr]; [vm_compute; tauto|]).
    contradiction.
  - vm_compute. reflexivity.
Defined.

(** ** Shape of the LISA tables *)

Lemma label_rows_shape (ds : list string) :
  forall (ys : list N) (qs : list Z) (ps : list Q),
    length ys = length ds -> length qs = length ds -> length ps = length ds ->
    map Lisa.ls_district (Lisa.label_rows ds ys qs ps) = ds
    /\ map Lisa.ls_cases (Lisa.label_rows ds ys qs ps) = ys
    /\ Forall (fun row =>
                 Lisa.lisa_cluster row
                 = Lisa.cluster_label (Lisa.lisa_quadrant row)
                                      (Lisa.lisa_pvalue row))
              (Lisa.label_rows ds ys qs ps).
Proof.
  induction ds as [|d ds IH]; intros ys qs ps Hy Hq Hp.
  - destruct ys; [|discriminate]. simpl. repeat split. constructor.
  - destruct ys as [|y ys], qs as [|q qs], ps as [|p ps]; try discriminate.
    simpl in Hy, Hq, Hp.
    destruct (IH ys qs ps) as (H1 & H2 & H3); try lia.
    simpl. rewrite H1, H2. repeat split. constructor; [reflexivity | exact H3].
Qed.

Lemma label_significant (q : Z) (p_sim : Q) :
  Lisa.cluster_label q p_sim <> Lisa.NotSignificant ->
  (p_sim < 5 # 100)%Q /\ 1 <= q <= 4.
Proof.
  rewrite cluster_label_cases. unfold Lisa.sig_mask.
  destruct (Risk.Qltb p_sim (5 # 100)) eqn:E; [|congruence].
  apply Qltb_lt in E. intros H. split; [exact E|].
  destruct (Z.eqb_spec q 4); [lia|]. destruct (Z.eqb_spec q 3); [lia|].
  destruct (Z.eqb_spec q 2); [lia|]. destruct (Z.eqb_spec q 1); [lia|].
  congruence.
Qed.

Lemma lisa_table_facts :
  forall (Weights : Type)
         (Moran_Local : list N -> Weights -> option (list Z * list Q))
         (gdf : list string) (w : Weights) (df : Frame.DataFrame) (year : Z)
         (rows : list Lisa.LisaRow),
    Lisa.compute_lisa_for_year Weights Moran_Local gdf w df year = Some rows ->
    map Lisa.ls_district rows = gdf
    /\ map Lisa.ls_cases rows
       = map (fun d =>
                Frame.sumN
                  (map Frame.cases
                       (Frame.where_district d
                          (filter (fun r => Frame.data_year r =? year) df))))
             gdf
    /\ (0 < Frame.sumN (map Lisa.ls_cases rows))%N
    /\ (forall row, In row rows ->
          Lisa.lisa_cluster row <> Lisa.NotSignificant ->
          (Lisa.lisa_pvalue row < 5 # 100)%Q
          /\ 1 <= Lisa.lisa_quadrant row <= 4).
Proof.
  intros Weights Moran_Local gdf w df year rows.
  unfold Lisa.compute_lisa_for_year. cbv zeta.
  set (y := map _ gdf).
  destruct (N.eqb_spec (Frame.sumN y) 0) as [|Hpos]; [discriminate|].
  destruct (Moran_Local y w) as [[q p]|]; [|discriminate].
  destruct (Nat.eqb_spec (length q) (length gdf)) as [Hq|]; [|discriminate].
  destruct (Nat.eqb_spec (length p) (length gdf)) as [Hp|]; [|discriminate].
  cbn [andb]. intros [= <-].
  assert (Hy : length y = length gdf) by apply length_map.
  destruct (label_rows_shape gdf y q p Hy Hq Hp) as (H1 & H2 & H3).
  rewrite H1, H2. repeat split; try lia.
  - rewrite Forall_forall in H3. rewrite (H3 row H) in H0.
    now apply label_significant in H0.
  - rewrite Forall_forall in H3. rewrite (H3 row H) in H0.
    apply label_significant in H0. lia.
  - rewrite Forall_forall in H3. rewrite (H3 row H) in H0.
    apply label_significant in H0. lia.
Qed.

(** A table returned by [compute_lisa_for_year] has one row per district
    of the geometry table, in its order, with the district's case total of
    that year; the year has at least one case; and a district labelled with
    a quadrant has a p-value below 0.05 and a quadrant code from 1 to 4. *)
Theorem lisa_table_shape :
  forall (Weights : Type)
         (Moran_Local : list N -> Weights -> option (list Z * list Q))
         (gdf : list string) (w : Weights) (df : Frame.DataFrame) (year : Z)
         (rows : list Lisa.LisaRow),
    Lisa.compute_lisa_for_year Weights Moran_Local gdf w df year = Some rows ->
    map Lisa.ls_district rows = gdf
    /\ map Lisa.ls_cases rows
       = map (fun d =>
                Frame.sumN
                  (map Frame.cases
                       (Frame.where_district d
                          (filter (fun r => Frame.data_year r =? year) df))))
             gdf
    /\ (0 < Frame.sumN (map Lisa.ls_cases rows))%N
    /\ (forall row, In row rows ->
          Lisa.lisa_cluster row <> Lisa.NotSignificant ->
          (Lisa.lisa_pvalue row < 5 # 100)%Q
          /\ 1 <= Lisa.lisa_quadrant row <= 4).
Proof. exact lisa_table_facts. Qed.

(** Witness: the two districts of 2024. *)
Lemma lisa_table_shape_witness :
  map Lisa.ls_district
      [Lisa.mkLisaRow "Garoua" 5 1 (3 # 100) Lisa.HighHigh;
       Lisa.mkLisaRow "Maroua" 2 3 (7 # 100) Lisa.NotSignificant]
  = ["Garoua"; "Maroua"]%string
  /\ map Lisa.ls_cases
         [Lisa.mkLisaRow "Garoua" 5 1 (3 # 100) Lisa.HighHigh;
          Lisa.mkLisaRow "Maroua" 2 3 (7 # 100) Lisa.NotSignificant]
     = map (fun d =>
              Frame.sumN
                (map Frame.cases
                     (Frame.where_district d
                        (filter (fun r => Frame.data_year r =? 2024)
                                Scenario.two_districts_2024))))
           ["Garoua"; "Maroua"]%string
  /\ (0 < Frame.sumN
            (map Lisa.ls_cases
                 [Lisa.mkLisaRow "Garoua" 5 1 (3 # 100) Lisa.HighHigh;
                  Lisa.mkLisaRow "Maroua" 2 3 (7 # 100)
                                 Lisa.NotSignificant]))%N
  /\ (forall row,
        In row [Lisa.mkLisaRow "Garoua" 5 1 (3 # 100) Lisa.HighHigh;
                Lisa.mkLisaRow "Maroua" 2 3 (7 # 100) Lisa.NotSignificant] ->
        Lisa.lisa_cluster row <> Lisa.NotSignificant ->
        (Lisa.lisa_pvalue row < 5 # 100)%Q
        /\ 1 <= Lisa.lisa_quadrant row <= 4).
Proof.
  apply (lisa_table_shape unit Scenario.moran_two_districts
           ["Garoua"; "Maroua"]%string tt Scenario.two_districts_2024 2024).
  vm_compute. reflexivity.
Defined.

(** ** Multi-year summary of the LISA page *)

(** The label texts of [lang_config_UPDATED.py]: a language other than
    French shows the English ones. *)
Lemma updated_text_cases (lang : string) (c : Lisa.Cluster) :
  LisaSummary.cluster_text LisaSummary.updated_get_text lang c
  = if String.eqb lang "fr"
    then LisaSummary.cluster_text LisaSummary.updated_get_text "fr" c
    else LisaSummary.cluster_text LisaSummary.updated_get_text "en" c.
Proof.
  unfold LisaSummary.cluster_text, LisaSummary.updated_get_text,
    Lang.get_text.
  destruct (String.eqb_spec lang "fr") as [->|Hfr].
  - destruct c; reflexivity.
  - apply String.eqb_neq in Hfr.
    destruct c; cbn; unfold LisaSummary.entry; rewrite Hfr;
      destruct (String.eqb lang "en"); reflexivity.
Qed.

(** In one language the five label texts of [lang_config_UPDATED.py] are
    pairwise different. *)
Lemma updated_texts_distinct (lang : string) (c1 c2 : Lisa.Cluster) :
  LisaSummary.cluster_text LisaSummary.updated_get_text lang c1
  = LisaSummary.cluster_text LisaSummary.updated_get_text lang c2 ->
  c1 = c2.
Proof.
  rewrite (updated_text_cases lang c1), (updated_text_cases lang c2).
  destruct (String.eqb lang "fr"); destruct c1, c2;
    intros H; try reflexivity; vm_compute in H; discriminate H.
Qed.

(** No English label text is a French one. *)
Lemma updated_texts_disjoint (c1 c2 : Lisa.Cluster) :
  LisaSummary.cluster_text LisaSummary.updated_get_text "en" c1
  <> LisaSummary.cluster_text LisaSummary.updated_get_text "fr" c2.
Proof. destruct c1, c2; vm_compute; discriminate. Qed.

Lemma count_labels_total (get_text : string -> string -> string)
    (lang : string) (rows : list Lisa.LisaRow) :
  (forall c1 c2,
      LisaSummary.cluster_text get_text lang c1
      = LisaSummary.cluster_text get_text lang c2 -> c1 = c2) ->
  (LisaSummary.count_label get_text lang lang Lisa.HighHigh rows
   + LisaSummary.count_label get_text lang lang Lisa.LowLow rows
   + LisaSummary.count_label get_text lang lang Lisa.HighLow rows
   + LisaSummary.count_label get_text lang lang Lisa.LowHigh rows
   + LisaSummary.count_label get_text lang lang Lisa.NotSignificant rows
   = length rows)%nat.
Proof.
  intros Hinj. unfold LisaSummary.count_label.
  induction rows as [|r rows IH]; [reflexivity|].
  cbn [filter length].
  assert (Hone : forall c,
             String.eqb
               (LisaSummary.cluster_text get_text lang (Lisa.lisa_cluster r))
               (LisaSummary.cluster_text get_text lang c)
             = LisaSummary.cluster_eqb (Lisa.lisa_cluster r) c).
  { intros c. destruct (String.eqb_spec
                          (LisaSummary.cluster_text get_text lang
                             (Lisa.lisa_cluster r))
                          (LisaSummary.cluster_text get_text lang c))
      as [E|NE].
    - apply Hinj in E. rewrite E. now destruct c.
    - destruct (Lisa.lisa_cluster r), c; try reflexivity;
        exfalso; apply NE; reflexivity. }
  rewrite !Hone.
  destruct (Lisa.lisa_cluster r); cbn [LisaSummary.cluster_eqb length]; lia.
Qed.

Lemma year_with_table_has_cases (Weights : Type)
    (Moran_Local : list N -> Weights -> option (list Z * list Q))
    (gdf : list string) (w : Weights) (df : Frame.DataFrame) (year : Z)
    (rows : list Lisa.LisaRow) :
  Lisa.compute_lisa_for_year Weights Moran_Local gdf w df year = Some rows ->
  N.lt 0 (Frame.sumN
            (map Frame.cases (filter (fun r => Frame.data_year r =? year) df))).
Proof.
  unfold Lisa.compute_lisa_for_year. cbv zeta.
  set (year_rows := filter (fun r => Frame.data_year r =? year) df).
  destruct (N.eqb_spec
              (Frame.sumN
                 (map (fun d =>
                         Frame.sumN
                           (map Frame.cases
                                (Frame.where_district d year_rows))) gdf)) 0)
    as [|Hpos]; [discriminate|].
  intros _.
  destruct (Frame.sumN (map Frame.cases year_rows)) eqn:E; [|lia].
  exfalso. apply Hpos. apply sumN_zero_all in E.
  apply sumN_all_zero. rewrite Forall_map, Forall_forall. intros d _.
  apply sumN_all_zero. rewrite Forall_map in *. rewrite Forall_forall in *.
  intros r Hr. apply E. unfold Frame.where_district in Hr.
  now apply filter_In in Hr.
Qed.

Lemma lisa_results_entries (Weights : Type)
    (Moran_Local : list N -> Weights -> option (list Z * list Q))
    (alpha : Q) (gdf : list string) (w : Weights) (df : Frame.DataFrame)
    (selected_years : list Z) (year : Z) (rows : list Lisa.LisaRow) :
  In (year, rows)
     (Lisa.lisa_results Weights Moran_Local alpha gdf w df selected_years)
  <-> In year selected_years
      /\ Lisa.compute_lisa_for_year Weights Moran_Local gdf w df year
         = Some rows.
Proof.
  unfold Lisa.lisa_results. rewrite in_flat_map. split.
  - intros (y & Hy & Hin).
    destruct (Lisa.compute_lisa_for_year Weights Moran_Local gdf w df y)
      as [res|] eqn:E; [|contradiction].
    destruct Hin as [[= <- <-]|[]]. now split.
  - intros [Hy E]. exists year. split; [exact Hy|]. rewrite E. now left.
Qed.

(** Every row of the multi-year summary is for a selected year that has
    at least one case; a selected year without cases has no row.  When the
    tables were labelled in the language of the page and the five label
    texts of that language differ from one another, the five cluster counts
    of a row add up to the number of districts of the geometry table. *)
Theorem lisa_summary_rows :
  forall (Weights : Type)
         (Moran_Local : list N -> Weights -> option (list Z * list Q))
         (alpha : Q) (gdf : list string) (w : Weights) (df : Frame.DataFrame)
         (selected_years : list Z) (get_text : string -> string -> string)
         (lang : string) (s : LisaSummary.SummaryRow),
    In s (LisaSummary.summary_data get_text lang lang
            (Lisa.lisa_results Weights Moran_Local alpha gdf w df
                               selected_years)) ->
    In (LisaSummary.sm_year s) selected_years
    /\ (0 < LisaSummary.sm_total_cases s)%N
    /\ N.lt 0 (Frame.sumN
                  (map Frame.cases
                       (filter (fun r => Frame.data_year r
                                         =? LisaSummary.sm_year s) df)))
    /\ ((forall c1 c2,
            LisaSummary.cluster_text get_text lang c1
            = LisaSummary.cluster_text get_text lang c2 -> c1 = c2) ->
        (LisaSummary.sm_hotspots s + LisaSummary.sm_coldspots s
         + LisaSummary.sm_hl_outliers s + LisaSummary.sm_lh_outliers s
         + LisaSummary.sm_not_significant s = length gdf)%nat).
Proof.
  intros Weights Moran_Local alpha gdf w df years get_text lang s Hs.
  unfold LisaSummary.summary_data in Hs. apply in_map_iff in Hs.
  destruct Hs as ([year rows] & <- & Hin).
  apply lisa_results_entries in Hin. destruct Hin as [Hy Hres].
  cbn [fst snd LisaSummary.sm_year LisaSummary.sm_total_cases
       LisaSummary.sm_hotspots LisaSummary.sm_coldspots
       LisaSummary.sm_hl_outliers LisaSummary.sm_lh_outliers
       LisaSummary.sm_not_significant].
  destruct (lisa_table_facts _ _ _ _ _ _ _ Hres) as (Hd & _ & Hpos & _).
  split; [exact Hy|]. split; [exact Hpos|]. split.
  - now apply (year_with_table_has_cases _ _ _ _ _ _ _ Hres).
  - intros Hinj. rewrite (count_labels_total _ _ _ Hinj). rewrite <- Hd.
    symmetry. apply length_map.
Qed.

(** Witness: the summary of 2023 and 2024 for a table without cases in
    2024, with the French texts of [lang_config_UPDATED.py]. *)
Lemma lisa_summary_rows_witness :
  In (LisaSummary.sm_year Samples.first_summary_row) [2023; 2024]
  /\ (0 < LisaSummary.sm_total_cases Samples.first_summary_row)%N
  /\ N.lt 0 (Frame.sumN
               (map Frame.cases
                    (filter (fun r => Frame.data_year r
                                      =? LisaSummary.sm_year
                                           Samples.first_summary_row)
                            Scenario.quiet_2024)))
  /\ (LisaSummary.sm_hotspots Samples.first_summary_row
      + LisaSummary.sm_coldspots Samples.first_summary_row
      + LisaSummary.sm_hl_outliers Samples.first_summary_row
      + LisaSummary.sm_lh_outliers Samples.first_summary_row
      + LisaSummary.sm_not_significant Samples.first_summary_row
      = length ["Garoua"; "Maroua"]%string)%nat.
Proof.
  destruct (lisa_summary_rows unit Scenario.moran_two_districts (5 # 100)
              ["Garoua"; "Maroua"]%string tt Scenario.quiet_2024 [2023; 2024]
              LisaSummary.updated_get_text "fr" Samples.first_summary_row)
    as (H1 & H2 & H3 & H4).
  - vm_compute. left. reflexivity.
  - split; [exact H1|]. split; [exact H2|]. split; [exact H3|].
    apply H4. apply updated_texts_distinct.
Defined.

Example lisa_summary_example :
  LisaSummary.summary_data LisaSummary.updated_get_text "fr" "fr"
    (Lisa.lisa_results unit Scenario.moran_two_districts (5 # 100)
       ["Garoua"; "Maroua"]%string tt Scenario.quiet_2024 [2023; 2024])
  = [LisaSummary.mkSummaryRow 2023 4 1 0 0 0 1].
Proof. vm_compute. reflexivity. Qed.

(** A table that was labelled in one language and is counted in another
    shows zero for all five cluster counts when no label text of the first
    language is a label text of the second. *)
Theorem lisa_summary_across_languages :
  forall (get_text : string -> string -> string) (table_lang lang : string)
         (lisa_results : list (Z * list Lisa.LisaRow))
         (s : LisaSummary.SummaryRow),
    (forall c1 c2,
        LisaSummary.cluster_text get_text table_lang c1
        <> LisaSummary.cluster_text get_text lang c2) ->
    In s (LisaSummary.summary_data get_text table_lang lang lisa_results) ->
    LisaSummary.sm_hotspots s = 0%nat
    /\ LisaSummary.sm_coldspots s = 0%nat
    /\ LisaSummary.sm_hl_outliers s = 0%nat
    /\ LisaSummary.sm_lh_outliers s = 0%nat
    /\ LisaSummary.sm_not_significant s = 0%nat.
Proof.
  intros get_text table_lang lang results s Hdis Hs.
  assert (Hzero : forall (label : Lisa.Cluster) rows,
             LisaSummary.count_label get_text table_lang lang label rows
             = 0%nat).
  { intros label rows. unfold LisaSummary.count_label.
    rewrite (filter_ext _ (fun _ => false)); [now rewrite filter_false|].
    intros r. apply String.eqb_neq. apply Hdis. }
  unfold LisaSummary.summary_data in Hs. apply in_map_iff in Hs.
  destruct Hs as (entry & <- & _).
  cbn [LisaSummary.sm_hotspots LisaSummary.sm_coldspots
       LisaSummary.sm_hl_outliers LisaSummary.sm_lh_outliers
       LisaSummary.sm_not_significant].
  rewrite !Hzero. tauto.
Qed.

(** Witness: the table of 2023 labelled in English and counted in French,
    with the texts of [lang_config_UPDATED.py]. *)
Lemma lisa_summary_across_languages_witness :
  LisaSummary.sm_hotspots (LisaSummary.mkSummaryRow 2023 4 0 0 0 0 0) = 0%nat
  /\ LisaSummary.sm_coldspots (LisaSummary.mkSummaryRow 2023 4 0 0 0 0 0)
     = 0%nat
  /\ LisaSummary.sm_hl_outliers (LisaSummary.mkSummaryRow 2023 4 0 0 0 0 0)
     = 0%nat
  /\ LisaSummary.sm_lh_outliers (LisaSummary.mkSummaryRow 2023 4 0 0 0 0 0)
     = 0%nat
  /\ LisaSummary.sm_not_significant
       (LisaSummary.mkSummaryRow 2023 4 0 0 0 0 0) = 0%nat.
Proof.
  apply (lisa_summary_across_languages LisaSummary.updated_get_text
           "en" "fr"
           (Lisa.lisa_results unit Scenario.moran_two_districts (5 # 100)
              ["Garoua"; "Maroua"]%string tt Scenario.quiet_2024
              [2023; 2024])).
  - exact updated_texts_disjoint.
  - vm_compute. left. reflexivity.
Defined.

(** ** Translations *)

(** [get_text] raises for no key and language exactly when every entry of
    the table has an English text; an entry without one raises for every
    language, also for those it has.  A key that is not in the table is
    returned as its own text. *)
Theorem get_text_total_iff_english :
  forall translations : string -> option (string -> option string),
    ((forall key language,
         Lang.get_text translations key language <> Lang.KeyError)
     <-> (forall key entry,
            translations key = Some entry -> entry "en"%string <> None))
    /\ (forall key language entry,
          translations key = Some entry -> entry "en"%string = None ->
          Lang.get_text translations key language = Lang.KeyError)
    /\ (forall key language,
          translations key = None ->
          Lang.get_text translations key language = Lang.Text key).
Proof.
  intros translations. unfold Lang.get_text.
  split; [split|split].
  - intros Hall key entry Hk He. specialize (Hall key "en"%string).
    rewrite Hk, He in Hall. now apply Hall.
  - intros Hall key language.
    destruct (translations key) as [entry|] eqn:Hk; [|discriminate].
    specialize (Hall key entry Hk).
    destruct (entry "en"%string); [|congruence].
    destruct (entry language); discriminate.
  - intros key language entry Hk He. now rewrite Hk, He.
  - intros key language Hk. now rewrite Hk.
Qed.

(** ** Rows of the predictions tables *)

Lemma unique_In (l : list string) (x : string) :
  In x (PredictionTable.unique l) <-> In x l.
Proof.
  induction l as [|y l IH]; simpl; [tauto|].
  rewrite filter_In, IH, negb_true_iff, String.eqb_neq.
  destruct (string_dec y x) as [->|NE]; [tauto|].
  split; [intros [E|[H _]]; tauto | intros [E|H]; [tauto|]].
  right. split; [exact H | congruence].
Qed.

Lemma unique_NoDup (l : list string) : NoDup (PredictionTable.unique l).
Proof.
  induction l as [|y l IH]; simpl; constructor.
  - rewrite filter_In, negb_true_iff, String.eqb_neq. tauto.
  - now apply NoDup_filter.
Qed.

Lemma predicted_districts_column
    (predict : Frame.DataFrame -> string -> Z -> option R)
    (df : Frame.DataFrame) (regions : list string) (weeks_ahead : Z) :
  map fst (PredictionTable.predicted_districts predict df regions weeks_ahead)
  = filter (fun d => match predict df d weeks_ahead with
                     | Some _ => true
                     | None => false
                     end)
           (PredictionTable.districts_to_predict df regions).
Proof.
  unfold PredictionTable.predicted_districts.
  induction (PredictionTable.districts_to_predict df regions) as [|d ds IH];
    [reflexivity|].
  cbn [flat_map filter]. rewrite map_app, IH.
  destruct (predict df d weeks_ahead); reflexivity.
Qed.

(** The predictions table has one row for each district of the selected
    regions that has enough observations in the whole table: at least 12
    on the bilingual page, at least 4 on the other page.  A district with
    fewer is left out without stopping the loop, and no district appears
    twice. *)
Theorem prediction_table_districts :
  forall (df : Frame.DataFrame) (selected_regions : list string)
         (weeks_ahead : Z) (district : string),
    (In district
        (map fst (PredictionTable.predicted_districts_bilingual
                    df selected_regions weeks_ahead))
     <-> (exists r, In r df /\ Frame.district_clean r = district
                    /\ In (Frame.region r) selected_regions)
         /\ (12 <= length (Frame.where_district district df))%nat)
    /\ (In district
           (map fst (PredictionTable.predicted_districts_original
                       df selected_regions weeks_ahead))
        <-> (exists r, In r df /\ Frame.district_clean r = district
                       /\ In (Frame.region r) selected_regions)
            /\ (4 <= length (Frame.where_district district df))%nat)
    /\ NoDup (map fst (PredictionTable.predicted_districts_bilingual
                         df selected_regions weeks_ahead))
    /\ NoDup (map fst (PredictionTable.predicted_districts_original
                         df selected_regions weeks_ahead)).
Proof.
  intros df regions w d.
  unfold PredictionTable.predicted_districts_bilingual,
    PredictionTable.predicted_districts_original.
  rewrite !predicted_districts_column.
  assert (Hsel : In d (PredictionTable.districts_to_predict df regions)
                 <-> exists r, In r df /\ Frame.district_clean r = d
                               /\ In (Frame.region r) regions).
  { unfold PredictionTable.districts_to_predict.
    rewrite unique_In, in_map_iff. split.
    - intros (r & E & Hr). apply filter_In in Hr. destruct Hr as [Hr Hg].
      apply existsb_exists in Hg. destruct Hg as (g & Hg & Eg).
      apply String.eqb_eq in Eg. exists r. repeat split; trivial.
      now rewrite Eg.
    - intros (r & Hr & E & Hg). exists r. split; [exact E|].
      apply filter_In. split; [exact Hr|]. apply existsb_exists.
      exists (Frame.region r). split; [exact Hg | apply String.eqb_refl]. }
  assert (Hb :
             match PredictionsBilingual.make_simple_prediction df d w with
             | Some _ => true
             | None => false
             end = true
             <-> (12 <= length (Frame.where_district d df))%nat).
  { pose proof (bilingual_none_iff df d w) as Hn.
    destruct (PredictionsBilingual.make_simple_prediction df d w).
    - split; [intros _|reflexivity].
      destruct (Nat.le_gt_cases 12 (length (Frame.where_district d df)))
        as [|Hlt]; [assumption|].
      apply Hn in Hlt. discriminate.
    - split; [discriminate|]. intros Hlen.
      assert (length (Frame.where_district d df) < 12)%nat
        by now apply Hn. lia. }
  assert (Ho :
             match Predictions.make_simple_prediction df d w with
             | Some _ => true
             | None => false
             end = true
             <-> (4 <= length (Frame.where_district d df))%nat).
  { pose proof (predictions_none_iff df d w) as Hn.
    destruct (Predictions.make_simple_prediction df d w).
    - split; [intros _|reflexivity].
      destruct (Nat.le_gt_cases 4 (length (Frame.where_district d df)))
        as [|Hlt]; [assumption|].
      apply Hn in Hlt. discriminate.
    - split; [discriminate|]. intros Hlen.
      assert (length (Frame.where_district d df) < 4)%nat
        by now apply Hn. lia. }
  split; [|split; [|split]].
  - now rewrite filter_In, Hsel, Hb.
  - now rewrite filter_In, Hsel, Ho.
  - apply NoDup_filter, unique_NoDup.
  - apply NoDup_filter, unique_NoDup.
Qed.

Example prediction_table_example :
  PredictionTable.predicted_districts_original Samples.surveillance
    ["Est"; "Sud"]%string 4
  = []
  /\ PredictionTable.predicted_districts_original
       (Scenario.history8 ++ Samples.surveillance) ["Nord"]%string 4
     = [("Garoua", "Nord")]%string.
Proof. split; reflexivity. Qed.

(** ** Further properties of the two forecasts *)

Lemma dampening_plateau (weeks_ahead : Z) :
  7 <= weeks_ahead ->
  Rmax (1 - (IZR weeks_ahead - 1) * (5 / 100)) (7 / 10) = (7 / 10)%R.
Proof.
  intros Hw. apply IZR_le in Hw. unfold Rmax.
  destruct (Rle_dec _ _); lra.
Qed.

(** On the bilingual page the horizon stops mattering at 7 weeks: from
    there on the dampening is held at 0.7, so every horizon of 7 weeks or
    more gives the forecast of 7 weeks. *)
Theorem bilingual_horizon_plateau :
  forall (df : Frame.DataFrame) (district : string) (weeks_ahead : Z),
    7 <= weeks_ahead ->
    PredictionsBilingual.make_simple_prediction df district weeks_ahead
    = PredictionsBilingual.make_simple_prediction df district 7.
Proof.
  intros df district w Hw.
  unfold PredictionsBilingual.make_simple_prediction. cbv zeta.
  rewrite (dampening_plateau w Hw), (dampening_plateau 7) by lia.
  reflexivity.
Qed.

(** Witness: the twelve observations at horizons 12 and 7. *)
Lemma bilingual_horizon_plateau_witness :
  PredictionsBilingual.make_simple_prediction Scenario.history12 "Garoua" 12
  = PredictionsBilingual.make_simple_prediction Scenario.history12 "Garoua" 7.
Proof.
  apply (bilingual_horizon_plateau Scenario.history12 "Garoua" 12). lia.
Defined.

Lemma tail_tail {A : Type} (n : nat) (l : list A) :
  Frame.tail n (Frame.tail n l) = Frame.tail n l.
Proof.
  unfold Frame.tail at 1. rewrite tail_length.
  replace (Nat.min n (length l) - n)%nat with 0%nat by lia. reflexivity.
Qed.

Lemma where_district_all (district : string) (rows : Frame.DataFrame) :
  Forall (fun r => Frame.district_clean r = district) rows ->
  Frame.where_district district rows = rows.
Proof.
  intros H. apply filter_all. rewrite Forall_forall in H.
  intros r Hr. apply String.eqb_eq. now apply H.
Qed.

Lemma where_district_Forall (district : string) (df : Frame.DataFrame) :
  Forall (fun r => Frame.district_clean r = district)
         (Frame.where_district district df).
Proof.
  rewrite Forall_forall. intros r Hr. unfold Frame.where_district in Hr.
  apply filter_In in Hr. now apply String.eqb_eq.
Qed.

(** The forecast of the second predictions page looks at the last 12 rows
    of the district in table order and at nothing else: rows of other
    districts, older rows of the district and the horizon do not change
    it. *)
Theorem original_forecast_uses_last_twelve_rows :
  forall (df : Frame.DataFrame) (district : string)
         (weeks_ahead weeks_ahead' : Z),
    Predictions.make_simple_prediction df district weeks_ahead
    = Predictions.make_simple_prediction
        (Frame.tail 12 (Frame.where_district district df)) district
        weeks_ahead'.
Proof.
  intros df district w w'.
  unfold Predictions.make_simple_prediction. cbv zeta.
  rewrite (where_district_all district
             (Frame.tail 12 (Frame.where_district district df)))
    by apply tail_Forall, where_district_Forall.
  now rewrite tail_tail.
Qed.

(** *** Row order and the bilingual forecast *)

Lemma key_ltb_spec (a b : Frame.Row) :
  Frame.key_ltb a b = true
  <-> Frame.data_year a < Frame.data_year b
      \/ (Frame.data_year a = Frame.data_year b
          /\ Frame.week_number a < Frame.week_number b).
Proof.
  unfold Frame.key_ltb.
  rewrite orb_true_iff, andb_true_iff, !Z.ltb_lt, Z.eqb_eq. tauto.
Qed.

Lemma key_ltb_false (a b : Frame.Row) :
  Frame.key_ltb a b = false
  <-> Frame.data_year b < Frame.data_year a
      \/ (Frame.data_year a = Frame.data_year b
          /\ Frame.week_number b <= Frame.week_number a).
Proof.
  rewrite <- not_true_iff_false, key_ltb_spec. lia.
Qed.

(** The (year, week) key of a row. *)
Lemma same_key_same_row (l : Frame.DataFrame) (a b : Frame.Row) :
  NoDup (map (fun r => (Frame.data_year r, Frame.week_number r)) l) ->
  In a l -> In b l ->
  Frame.data_year a = Frame.data_year b ->
  Frame.week_number a = Frame.week_number b -> a = b.
Proof.
  induction l as [|x l IH]; intros Hnd Ha Hb Ey Ew; [contradiction|].
  cbn [map] in Hnd. inversion Hnd as [|? ? Hx Hl]; subst.
  destruct Ha as [<-|Ha], Hb as [<-|Hb]; trivial.
  - exfalso. apply Hx. rewrite Ey, Ew.
    now apply (in_map (fun r => (Frame.data_year r, Frame.week_number r))).
  - exfalso. apply Hx. rewrite <- Ey, <- Ew.
    now apply (in_map (fun r => (Frame.data_year r, Frame.week_number r))).
  - now apply IH.
Qed.

(** Two arrangements of the same rows, both in non-increasing key order,
    are the same list when no key repeats. *)
Lemma sorted_arrangement_unique (l1 : Frame.DataFrame) :
  forall l2 : Frame.DataFrame,
    NoDup (map (fun r => (Frame.data_year r, Frame.week_number r)) l1) ->
    Permutation l1 l2 ->
    StronglySorted (fun a b => Frame.key_ltb a b = false) l1 ->
    StronglySorted (fun a b => Frame.key_ltb a b = false) l2 ->
    l1 = l2.
Proof.
  induction l1 as [|a l1 IH]; intros l2 Hnd Hperm Hs1 Hs2.
  - apply Permutation_nil in Hperm. now subst.
  - destruct l2 as [|b l2];
      [apply Permutation_sym, Permutation_nil_cons in Hperm; contradiction|].
    assert (Hab : a = b).
    { assert (Ha2 : In a (b :: l2))
        by (eapply Permutation_in; [exact Hperm | now left]).
      assert (Hb1 : In b (a :: l1))
        by (eapply Permutation_in;
            [apply Permutation_sym; exact Hperm | now left]).
      destruct Ha2 as [E|Ha2]; [now subst|].
      destruct Hb1 as [E|Hb1]; [exact E|].
      apply StronglySorted_inv in Hs1, Hs2.
      destruct Hs1 as [_ F1], Hs2 as [_ F2].
      rewrite Forall_forall in F1, F2.
      specialize (F1 b Hb1). specialize (F2 a Ha2).
      apply key_ltb_false in F1, F2.
      apply (same_key_same_row (a :: l1)); trivial;
        [now left | now right | lia | lia]. }
    subst b. f_equal.
    apply StronglySorted_inv in Hs1, Hs2.
    apply IH; try tauto.
    + cbn [map] in Hnd. now inversion Hnd.
    + now apply Permutation_cons_inv in Hperm.
Qed.

Lemma nlargest_order_sorted (l : Frame.DataFrame) :
  StronglySorted (fun a b => Frame.key_ltb a b = false)
                 (Frame.sort_by (fun y x => Frame.key_ltb x y) l).
Proof.
  apply sort_by_ordered.
  - intros a b H. apply key_ltb_spec in H. apply key_ltb_false. lia.
  - intros a b H. exact H.
  - intros a b c H1 H2. apply key_ltb_false in H1, H2.
    apply key_ltb_false. lia.
Qed.

Lemma filter_perm {A : Type} (p : A -> bool) (l l' : list A) :
  Permutation l l' -> Permutation (filter p l) (filter p l').
Proof.
  induction 1 as [|x l l' _ IH|x y l|l l' l'' _ IH1 _ IH2]; simpl.
  - constructor.
  - destruct (p x); [now constructor | exact IH].
  - destruct (p x), (p y); try apply Permutation_refl. apply perm_swap.
  - now apply perm_trans with (filter p l').
Qed.

(** When no (year, week) repeats among the rows of the district, the
    bilingual forecast does not depend on the order of the rows in the
    table: it picks the most recent weeks by their dates. *)
Theorem bilingual_forecast_ignores_row_order :
  forall (df df' : Frame.DataFrame) (district : string) (weeks_ahead : Z),
    Permutation df df' ->
    NoDup (map (fun r => (Frame.data_year r, Frame.week_number r))
               (Frame.where_district district df)) ->
    PredictionsBilingual.make_simple_prediction df district weeks_ahead
    = PredictionsBilingual.make_simple_prediction df' district weeks_ahead.
Proof.
  intros df df' district w Hperm Hnd.
  unfold PredictionsBilingual.make_simple_prediction. cbv zeta.
  assert (Hp : Permutation (Frame.where_district district df)
                           (Frame.where_district district df'))
    by now apply filter_perm.
  assert (Hn : Frame.nlargest 12 (Frame.where_district district df)
               = Frame.nlargest 12 (Frame.where_district district df')).
  { unfold Frame.nlargest. f_equal.
    apply sorted_arrangement_unique; try apply nlargest_order_sorted.
    - eapply Permutation_NoDup; [|exact Hnd].
      apply Permutation_map, Permutation_sym, sort_by_perm.
    - apply perm_trans with (Frame.where_district district df);
        [apply sort_by_perm|].
      apply perm_trans with (Frame.where_district district df');
        [exact Hp | apply Permutation_sym, sort_by_perm]. }
  rewrite (Permutation_length Hp), Hn. reflexivity.
Qed.

(** Witness: the twelve observations, and the same rows in reverse. *)
Lemma bilingual_row_order_witness :
  PredictionsBilingual.make_simple_prediction Scenario.history12 "Garoua" 1
  = PredictionsBilingual.make_simple_prediction (rev Scenario.history12)
                                                "Garoua" 1.
Proof.
  apply (bilingual_forecast_ignores_row_order Scenario.history12
           (rev Scenario.history12) "Garoua" 1).
  - apply Permutation_rev.
  - vm_compute. repeat constructor; simpl; intuition discriminate.
Defined.

(** The other page reads the rows in table order, so there the same rows
    in reverse give another forecast. *)
Example original_forecast_depends_on_row_order :
  Predictions.make_simple_prediction Scenario.history8 "Garoua" 1
  = Some (145 / 2)%R
  /\ Predictions.make_simple_prediction (rev Scenario.history8) "Garoua" 1
     = Some 0%R.
Proof.
  split; [exact history8_predictions|].
  eval_frame. f_equal. simpl INR. unfold Rmax.
  destruct (Rle_dec _ _); lra.
Qed.

(** ** Activity figures of the overview page *)

Lemma series_max_upper (l : list Z) (m : Z) :
  Activity.series_max l = Some m -> In m l /\ forall x, In x l -> x <= m.
Proof.
  destruct l as [|a l]; [discriminate|]. intros [= <-].
  induction l as [|b l IH]; simpl.
  - split; [now left|]. intros x [<-|[]]. lia.
  - destruct IH as [Hin Hub]. split.
    + destruct (Z.max_spec b (fold_right Z.max a l)) as [[_ ->]|[_ ->]].
      * destruct Hin as [E|Hin]; [now left | now right; right].
      * now right; left.
    + intros x [<-|[<-|Hx]].
      * specialize (Hub a (or_introl eq_refl)). lia.
      * lia.
      * specialize (Hub x (or_intror Hx)). lia.
Qed.

Lemma sumN_filter_le (p : Frame.Row -> bool) (rows : Frame.DataFrame) :
  (Frame.sumN (map Frame.cases (filter p rows))
   <= Frame.sumN (map Frame.cases rows))%N.
Proof.
  induction rows as [|r rows IH]; [reflexivity|].
  cbn [filter]. destruct (p r); cbn [map]; rewrite ?sumN_cons; lia.
Qed.

Lemma no_positive_row_iff (rows : Frame.DataFrame) :
  length (filter (fun r => (0 <? Frame.cases r)%N) rows) = 0%nat
  <-> Frame.sumN (map Frame.cases rows) = 0%N.
Proof.
  induction rows as [|r rows IH]; [simpl; tauto|].
  cbn [map filter]. rewrite sumN_cons.
  destruct (N.ltb_spec 0 (Frame.cases r)); cbn [length].
  - split; [discriminate | lia].
  - rewrite IH. lia.
Qed.

Lemma yoy_not_below_minus_100 (cur prev : N) :
  (0 < prev)%N ->
  (-100 <= (Risk.count cur - Risk.count prev) / Risk.count prev * 100)%Q.
Proof.
  intros Hp.
  assert (Qp : (0 < Risk.count prev)%Q)
    by (unfold Risk.count; change 0%Q with (inject_Z 0);
        rewrite <- Zlt_Qlt; lia).
  assert (Qc : (0 <= Risk.count cur)%Q)
    by (unfold Risk.count; change 0%Q with (inject_Z 0);
        rewrite <- Zle_Qle; lia).
  assert (E : ((Risk.count cur - Risk.count prev) / Risk.count prev * 100
               == Risk.count cur / Risk.count prev * 100 - 100)%Q).
  { field. intros Z. rewrite Z in Qp. now apply Qlt_irrefl in Qp. }
  rewrite E.
  assert (0 <= Risk.count cur / Risk.count prev)%Q.
  { apply Qle_shift_div_l; [exact Qp|]. now rewrite Qmult_0_l. }
  lra.
Qed.

(** The activity figures of [compute_kpis] are consistent with each other
    and with the totals: affected districts are at most all districts; the
    latest year is a selected year and no selected row is later; the cases
    of the latest week are part of the case total; there is no active
    outbreak exactly when the latest week has no case; the year-over-year
    change is 0 when the same week a year before had no case and is never
    below -100 percent. *)
Theorem activity_figures_consistent :
  forall (df : Frame.DataFrame) (selected_years : list Z)
         (selected_regions : list string),
    let a :=
      Activity.compute_kpis_activity df selected_years selected_regions in
    let df_filtered :=
      Overview.filter_selection df selected_years selected_regions in
    (Activity.affected_districts a <= Activity.total_districts a)%nat
    /\ (forall y, Activity.latest_year a = Some y ->
          In y selected_years
          /\ forall r, In r df_filtered -> Frame.data_year r <= y)
    /\ (df_filtered <> [] ->
        Activity.latest_year a <> None /\ Activity.latest_week a <> None)
    /\ (Activity.current_week_cases a
        <= Overview.total_cases
             (Overview.compute_kpis df selected_years selected_regions))%N
    /\ (Activity.active_outbreaks a = 0%nat
        <-> Activity.current_week_cases a = 0%N)
    /\ (Activity.prev_year_cases a = 0%N -> Activity.yoy_change a = 0%Q)
    /\ (-100 <= Activity.yoy_change a)%Q.
Proof.
  intros df ys rs. cbv zeta.
  unfold Activity.compute_kpis_activity, Overview.compute_kpis. cbv zeta.
  set (dff := Overview.filter_selection df ys rs).
  cbn [Activity.affected_districts Activity.total_districts
       Activity.latest_year Activity.latest_week Activity.current_week_cases
       Activity.active_outbreaks Activity.prev_year_cases
       Activity.yoy_change Overview.total_cases].
  split; [|split; [|split; [|split; [|split; [|split]]]]].
  - apply NoDup_incl_length; [apply NoDup_nodup|].
    intros d Hd. apply nodup_In in Hd. apply nodup_In.
    apply in_map_iff in Hd. destruct Hd as (r & <- & Hr).
    apply in_map. now apply filter_In in Hr.
  - intros y Hy. apply series_max_upper in Hy. destruct Hy as [Hin Hub].
    split.
    + apply in_map_iff in Hin. destruct Hin as (r & <- & Hr).
      unfold dff, Overview.filter_selection in Hr.
      apply filter_In in Hr. destruct Hr as [_ Hr].
      apply andb_true_iff in Hr. destruct Hr as [Hr _].
      apply existsb_exists in Hr. destruct Hr as (y & Hy & E).
      apply Z.eqb_eq in E. now rewrite E.
    + intros r Hr. apply Hub. now apply in_map.
  - intros Hne. destruct dff as [|r0 rest] eqn:Edff; [contradiction|].
    split; [discriminate|].
    set (ly := Activity.series_max (map Frame.data_year (r0 :: rest))).
    destruct ly as [y|] eqn:Ely; [|discriminate].
    destruct (series_max_upper _ _ Ely) as [Hin _].
    apply in_map_iff in Hin. destruct Hin as (r & Er & Hr).
    assert (Hr' : In r (filter (fun r => Activity.equals (Frame.data_year r)
                                                         (Some y))
                               (r0 :: rest))).
    { apply filter_In. split; [exact Hr|]. simpl. rewrite Er.
      apply Z.eqb_refl. }
    destruct (filter _ (r0 :: rest)) as [|x xs]; [contradiction|].
    discriminate.
  - apply sumN_filter_le.
  - apply no_positive_row_iff.
  - intros Hz. rewrite Hz. reflexivity.
  - match goal with
    | |- context [(0 <? ?p)%N] => destruct (N.ltb_spec 0 p) as [Hp|Hp]
    end.
    + now apply yoy_not_below_minus_100.
    + discriminate.
Qed.

Example activity_example :
  let a := Activity.compute_kpis_activity Samples.surveillance [2023; 2024]
                                          Samples.all_regions in
  (Activity.affected_districts a, Activity.total_districts a,
   Activity.latest_year a, Activity.latest_week a,
   Activity.current_week_cases a, Activity.active_outbreaks a,
   Activity.prev_year_cases a)
  = (4%nat, 5%nat, Some 2024, Some 2, 45%N, 5%nat, 0%N).
Proof. vm_compute. reflexivity. Qed.

(** ** Yearly CFR of the single-file dashboard *)

(** In [minimal_dashboard.py] a year without cases is divided by 1: its
    CFR is 100 times its deaths (so a year with deaths and no case shows
    100 percent or more); a year with cases gets deaths per 100 cases, and
    when no record has more deaths than cases the CFR stays within
    0..100. *)
Theorem minimal_yearly_cfr :
  forall (df : Frame.DataFrame) (selected_years : list Z)
         (selected_regions : list string) (week_range : Z * Z)
         (row : Minimal.YearSummary),
    In row (Minimal.yearly_summary
              (Minimal.filtered_df df selected_years selected_regions
                                   week_range)) ->
    (Minimal.ys_cases row = 0%N ->
     (Minimal.ys_cfr row == Risk.count (Minimal.ys_deaths row) * 100)%Q)
    /\ ((0 < Minimal.ys_cases row)%N ->
        Minimal.ys_cfr row
        = (Risk.count (Minimal.ys_deaths row)
           / Risk.count (Minimal.ys_cases row) * 100)%Q)
    /\ (Forall (fun r => (Frame.deaths r <= Frame.cases r)%N) df ->
        (0 <= Minimal.ys_cfr row)%Q /\ (Minimal.ys_cfr row <= 100)%Q).
Proof.
  intros df ys rs wr row Hrow.
  set (filtered := Minimal.filtered_df df ys rs wr) in *.
  assert (Hsub : incl filtered df) by apply filter_incl.
  unfold Minimal.yearly_summary in Hrow.
  apply in_map_iff in Hrow. destruct Hrow as (y & <- & _).
  cbn [Minimal.ys_cases Minimal.ys_deaths Minimal.ys_cfr].
  set (g := filter (fun r => Frame.data_year r =? y) filtered).
  unfold Minimal.replace_zero_by_one.
  destruct (N.eqb_spec (Frame.sumN (map Frame.cases g)) 0) as [Hz|Hnz].
  - split; [intros _; unfold Risk.count at 2; simpl; field|].
    split; [lia|]. intros Hall.
    assert (Hd : (Frame.sumN (map Frame.deaths g)
                  <= Frame.sumN (map Frame.cases g))%N).
    { apply sumN_deaths_le_cases.
      apply (incl_Forall_rows _ g df); [|exact Hall].
      eapply incl_tran; [apply filter_incl | exact Hsub]. }
    assert (Hd0 : Frame.sumN (map Frame.deaths g) = 0%N) by lia.
    rewrite Hd0. split; vm_compute; discriminate.
  - split; [lia|]. split; [reflexivity|]. intros Hall.
    apply percentage_bounds; [lia|].
    apply sumN_deaths_le_cases.
    apply (incl_Forall_rows _ g df); [|exact Hall].
    eapply incl_tran; [apply filter_incl | exact Hsub].
Qed.

(** Witness: the year 2024 of the district with a death and no case. *)
Lemma minimal_yearly_cfr_witness :
  (Minimal.ys_cases (Minimal.mkYearSummary 2024 0 1 (100 # 1)) = 0%N ->
   (Minimal.ys_cfr (Minimal.mkYearSummary 2024 0 1 (100 # 1))
    == Risk.count (Minimal.ys_deaths
                     (Minimal.mkYearSummary 2024 0 1 (100 # 1))) * 100)%Q)
  /\ ((0 < Minimal.ys_cases (Minimal.mkYearSummary 2024 0 1 (100 # 1)))%N ->
      Minimal.ys_cfr (Minimal.mkYearSummary 2024 0 1 (100 # 1))
      = (Risk.count (Minimal.ys_deaths
                       (Minimal.mkYearSummary 2024 0 1 (100 # 1)))
         / Risk.count (Minimal.ys_cases
                         (Minimal.mkYearSummary 2024 0 1 (100 # 1)))
         * 100)%Q)
  /\ (Forall (fun r => (Frame.deaths r <= Frame.cases r)%N)
             Scenario.death_without_case ->
      (0 <= Minimal.ys_cfr (Minimal.mkYearSummary 2024 0 1 (100 # 1)))%Q
      /\ (Minimal.ys_cfr (Minimal.mkYearSummary 2024 0 1 (100 # 1))
          <= 100)%Q).
Proof.
  apply (minimal_yearly_cfr Scenario.death_without_case [2024]
           ["Nord"%string] (1, 53)
           (Minimal.mkYearSummary 2024 0 1 (100 # 1))).
  vm_compute. left. reflexivity.
Defined.
